(** * CRUD adapters of the AWS provider: a shallow embedding

    The development covers four source files of the provider:
    - the Access Analyzer analyzer resource,
    - the Redshift snapshot schedule resource,
    - the EC2 traffic mirror filter resource,
    - the WAF regional rule data source.

    Every callback of the provider receives a [*schema.ResourceData] that it
    mutates and a client handle on which it issues SDK calls.  Here a
    callback is a function from the resource data to a computation in a
    small state monad whose state is the history of SDK calls issued so
    far; the remote service is a family of handlers that answer a request
    given that history. *)

From stdpp Require Import gmap strings list.

Open Scope string_scope.
Open Scope list_scope.
Open Scope Z_scope.

(** ** Strings: the two functions of Go's [strings] package that matter *)

Fixpoint HasPrefix (s prefix : string) : bool :=
  match prefix, s with
  | EmptyString, _ => true
  | String _ _, EmptyString => false
  | String c p, String c' s' => bool_decide (c = c') && HasPrefix s' p
  end.

Fixpoint Contains (s substr : string) : bool :=
  HasPrefix s substr ||
  match s with
  | EmptyString => false
  | String _ s' => Contains s' substr
  end.

(** [aws.StringValue]: the string behind a [*string], [""] for [nil]. *)
Definition StringValue (p : option string) : string := default "" p.

(** ** Errors

    What an SDK call returns when it fails is an [awserr.Error]: a service
    error code and a message.  A Go [error] is one of: such an SDK error;
    the time-out error of the retry primitive; an error made by
    [fmt.Errorf] with [%s]/[%v] verbs only; an error made by [fmt.Errorf]
    with a [%w] verb, which keeps the cause.  A [nil] error is [None]. *)

Record awserr : Type := mkAwsErr {
  Code : string;
  Message : string
}.

Inductive error : Type :=
| AwsErr (e : awserr)
| TimeoutError
| Errorf (msg : string)
| Wrapf (msg : string) (cause : error).

(** An SDK call that returns only an error. *)
Definition sdk (err : option awserr) : option error := AwsErr <$> err.

(** The [Error()] method.  An SDK error prints as [code: message]. *)
Definition ErrorString (e : error) : string :=
  match e with
  | AwsErr e => Code e +:+ ": " +:+ Message e
  | TimeoutError => "timeout while waiting for state"
  | Errorf msg => msg
  | Wrapf msg _ => msg
  end.

(** [tfawserr.ErrCodeEquals] and [tfawserr.ErrMessageContains]: both are
    false of a [nil] error and of an error that is not an SDK error. *)
Definition ErrCodeEquals (err : option error) (code : string) : bool :=
  match err with
  | Some (AwsErr e) => bool_decide (Code e = code)
  | _ => false
  end.

Definition ErrMessageContains (err : option error) (code message : string) : bool :=
  match err with
  | Some (AwsErr e) => bool_decide (Code e = code) && Contains (Message e) message
  | _ => false
  end.

(** Result of an SDK call: a response or an error. *)
Inductive result (A : Type) : Type :=
| Ok (a : A)
| Err (e : awserr).
Arguments Ok {A} a.
Arguments Err {A} e.

Definition errOf {A} (r : result A) : option error :=
  match r with
  | Ok _ => None
  | Err e => Some (AwsErr e)
  end.

(** ** Time: [time.Duration] counts nanoseconds *)

Definition Duration := Z.
Definition Second : Duration := 1000000000.
Definition Minute : Duration := 60 * Second.

(** ** Tags *)

Abbreviation KeyValueTags := (gmap string string).

Definition AwsTagKeyPrefix : string := "aws:".

(** ** Schema values and resource data *)

Inductive Value : Type :=
| VString (s : string)
| VBool (b : bool)
| VSet (s : gset string)
| VMap (m : gmap string string).

Global Instance Value_eq_dec : EqDecision Value.
Proof. solve_decision. Defined.

(** A value is zero when it is the zero value of its schema type. *)
Definition isZero (v : Value) : bool :=
  match v with
  | VString s => bool_decide (s = "")
  | VBool b => negb b
  | VSet s => bool_decide (s = ∅)
  | VMap m => bool_decide (m = ∅)
  end.

(** [ResourceData]: the identifier, the new-resource mark, the attributes
    of the prior state and the attributes of the planned configuration,
    which [Set] overwrites and [Get] reads. *)
Record ResourceData : Type := mkResourceData {
  Id : string;
  IsNewResource : bool;
  prior : gmap string Value;
  attrs : gmap string Value
}.

Definition SetId (v : string) (d : ResourceData) : ResourceData :=
  mkResourceData v (IsNewResource d) (prior d) (attrs d).

Definition Set_ (key : string) (v : Value) (d : ResourceData) : ResourceData :=
  mkResourceData (Id d) (IsNewResource d) (prior d) (<[key := v]> (attrs d)).

(** [d.Get(key)] followed by the type assertion the caller writes; an
    attribute that is not set reads as the zero value. *)
Definition asString (v : option Value) : string :=
  match v with Some (VString s) => s | _ => "" end.
Definition asBool (v : option Value) : bool :=
  match v with Some (VBool b) => b | _ => false end.
Definition asSet (v : option Value) : gset string :=
  match v with Some (VSet s) => s | _ => ∅ end.
Definition asMap (v : option Value) : gmap string string :=
  match v with Some (VMap m) => m | _ => ∅ end.

Definition Get (d : ResourceData) (key : string) : option Value := attrs d !! key.

(** [d.GetOk(key)]: the value, and whether it is set to a non-zero value. *)
Definition GetOk (d : ResourceData) (key : string) : option Value * bool :=
  (attrs d !! key,
   match attrs d !! key with Some v => negb (isZero v) | None => false end).

(** [d.GetChange(key)] and [d.HasChange(key)]: an attribute that is not
    set equals the zero value of its type. *)
Definition GetChange (d : ResourceData) (key : string) : option Value * option Value :=
  (prior d !! key, attrs d !! key).

Definition sameValue (o n : option Value) : bool :=
  match o, n with
  | None, None => true
  | None, Some v | Some v, None => isZero v
  | Some v, Some v' => bool_decide (v = v')
  end.

Definition HasChange (d : ResourceData) (key : string) : bool :=
  negb (sameValue (prior d !! key) (attrs d !! key)).

(** ** Request and response shapes of the SDK, one module per service *)

Module waf.
Record RuleSummary : Type := mkRuleSummary {
  Name : option string;
  RuleId : option string
}.
Record ListRulesInput : Type := mkListRulesInput {
  NextMarker : option string
}.
Record ListRulesOutput : Type := mkListRulesOutput {
  Rules : list RuleSummary;
  OutNextMarker : option string
}.
End waf.

Module accessanalyzer.
Definition ErrCodeValidationException : string := "ValidationException".
Definition ErrCodeResourceNotFoundException : string := "ResourceNotFoundException".
Definition TypeAccount : string := "ACCOUNT".
Definition TypeOrganization : string := "ORGANIZATION".

Record CreateAnalyzerInput : Type := mkCreateAnalyzerInput {
  AnalyzerName : string;
  ClientToken : string;
  Tags : KeyValueTags;
  Type_ : string
}.
Record AnalyzerSummary : Type := mkAnalyzerSummary {
  Name : option string;
  Arn : option string;
  SummaryTags : KeyValueTags;
  SummaryType : option string
}.
Record GetAnalyzerOutput : Type := mkGetAnalyzerOutput {
  Analyzer : option AnalyzerSummary
}.
Record DeleteAnalyzerInput : Type := mkDeleteAnalyzerInput {
  DelAnalyzerName : string;
  DelClientToken : string
}.
End accessanalyzer.

Module redshift.
Definition ErrCodeSnapshotScheduleNotFoundFault : string := "SnapshotScheduleNotFound".
Definition ErrCodeClusterNotFoundFault : string := "ClusterNotFound".

Record CreateSnapshotScheduleInput : Type := mkCreateSnapshotScheduleInput {
  ScheduleIdentifier : string;
  ScheduleDefinitions : list string;
  Tags : KeyValueTags;
  ScheduleDescription : option string
}.
Record ClusterAssociatedToSchedule : Type := mkClusterAssociatedToSchedule {
  ClusterIdentifier : option string
}.
Record SnapshotSchedule : Type := mkSnapshotSchedule {
  SchedIdentifier : option string;
  SchedDescription : option string;
  SchedDefinitions : list string;
  SchedTags : KeyValueTags;
  AssociatedClusters : list ClusterAssociatedToSchedule
}.
Record DescribeSnapshotSchedulesOutput : Type := mkDescribeSnapshotSchedulesOutput {
  SnapshotSchedules : list SnapshotSchedule
}.
Record ModifySnapshotScheduleInput : Type := mkModifySnapshotScheduleInput {
  ModScheduleIdentifier : string;
  ModScheduleDefinitions : list string
}.
Record ModifyClusterSnapshotScheduleInput : Type := mkModifyClusterSnapshotScheduleInput {
  McClusterIdentifier : option string;
  McScheduleIdentifier : string;
  DisassociateSchedule : bool
}.
End redshift.

Module ec2.
Definition ServiceName : string := "ec2".
Definition ResourceTypeTrafficMirrorFilter : string := "traffic-mirror-filter".
Definition ErrCodeInvalidTrafficMirrorFilterIdNotFound : string :=
  "InvalidTrafficMirrorFilterId.NotFound".

Record TagSpecification : Type := mkTagSpecification {
  ResourceType : string;
  Tags : KeyValueTags
}.
Record CreateTrafficMirrorFilterInput : Type := mkCreateTrafficMirrorFilterInput {
  Description : option string;
  TagSpecifications : list TagSpecification
}.
Record TrafficMirrorFilter : Type := mkTrafficMirrorFilter {
  TrafficMirrorFilterId : option string;
  FilterDescription : option string;
  FilterTags : KeyValueTags;
  NetworkServices : list (option string)
}.
Record CreateTrafficMirrorFilterOutput : Type := mkCreateTrafficMirrorFilterOutput {
  CreatedFilter : TrafficMirrorFilter
}.
Record ModifyTrafficMirrorFilterNetworkServicesInput : Type :=
  mkModifyTrafficMirrorFilterNetworkServicesInput {
  ModTrafficMirrorFilterId : string;
  AddNetworkServices : option (list string);
  RemoveNetworkServices : option (list string)
}.
Record DescribeTrafficMirrorFiltersOutput : Type := mkDescribeTrafficMirrorFiltersOutput {
  TrafficMirrorFilters : list TrafficMirrorFilter
}.
End ec2.

(** ** The history of calls and the remote service *)

Inductive Call : Type :=
| ListRules (input : waf.ListRulesInput)
| CreateAnalyzer (input : accessanalyzer.CreateAnalyzerInput)
| GetAnalyzer (analyzerName : string)
| DeleteAnalyzer (input : accessanalyzer.DeleteAnalyzerInput)
| AccessanalyzerUpdateTags (identifier : string) (o n : option Value)
| CreateSnapshotSchedule (input : redshift.CreateSnapshotScheduleInput)
| DescribeSnapshotSchedules (scheduleIdentifier : string)
| ModifySnapshotSchedule (input : redshift.ModifySnapshotScheduleInput)
| ModifyClusterSnapshotSchedule (input : redshift.ModifyClusterSnapshotScheduleInput)
| WaitAssociationDestroy (timeout : Duration) (clusterIdentifier scheduleIdentifier : string)
| DeleteSnapshotSchedule (scheduleIdentifier : string)
| RedshiftUpdateTags (identifier : string) (o n : option Value)
| CreateTrafficMirrorFilter (input : ec2.CreateTrafficMirrorFilterInput)
| ModifyTrafficMirrorFilterNetworkServices
    (input : ec2.ModifyTrafficMirrorFilterNetworkServicesInput)
| DescribeTrafficMirrorFilters (trafficMirrorFilterIds : list string)
| DeleteTrafficMirrorFilter (trafficMirrorFilterId : string)
| Ec2UpdateTags (identifier : string) (o n : option Value).

Definition World := list Call.

(** The service answers a request as a function of the calls it has seen
    before: two equal requests may get different answers over time. *)
Record WAFRegionalConn : Type := mkWAFRegionalConn {
  onListRules : World -> waf.ListRulesInput -> result waf.ListRulesOutput
}.

Record AccessAnalyzerConn : Type := mkAccessAnalyzerConn {
  onCreateAnalyzer : World -> accessanalyzer.CreateAnalyzerInput -> option awserr;
  onGetAnalyzer : World -> string -> result (option accessanalyzer.GetAnalyzerOutput);
  onDeleteAnalyzer : World -> accessanalyzer.DeleteAnalyzerInput -> option awserr;
  onAccessanalyzerUpdateTags : World -> string -> option Value -> option Value -> option error
}.

Record RedshiftConn : Type := mkRedshiftConn {
  onCreateSnapshotSchedule :
    World -> redshift.CreateSnapshotScheduleInput -> result (option string);
  onDescribeSnapshotSchedules :
    World -> string -> result redshift.DescribeSnapshotSchedulesOutput;
  onModifySnapshotSchedule : World -> redshift.ModifySnapshotScheduleInput -> option awserr;
  onModifyClusterSnapshotSchedule :
    World -> redshift.ModifyClusterSnapshotScheduleInput -> option awserr;
  onWaitAssociationDestroy : World -> Duration -> string -> string -> option error;
  onDeleteSnapshotSchedule : World -> string -> option awserr;
  onRedshiftUpdateTags : World -> string -> option Value -> option Value -> option error
}.

Record EC2Conn : Type := mkEC2Conn {
  onCreateTrafficMirrorFilter :
    World -> ec2.CreateTrafficMirrorFilterInput -> result ec2.CreateTrafficMirrorFilterOutput;
  onModifyTrafficMirrorFilterNetworkServices :
    World -> ec2.ModifyTrafficMirrorFilterNetworkServicesInput -> option awserr;
  onDescribeTrafficMirrorFilters :
    World -> list string -> result ec2.DescribeTrafficMirrorFiltersOutput;
  onDeleteTrafficMirrorFilter : World -> string -> option awserr;
  onEc2UpdateTags : World -> string -> option Value -> option Value -> option error
}.

(** [client.AWSClient], the [meta] argument of every callback. *)
Record AWSClient : Type := mkAWSClient {
  WAFRegional : WAFRegionalConn;
  AccessAnalyzer : AccessAnalyzerConn;
  Redshift : RedshiftConn;
  EC2 : EC2Conn;
  DefaultTagsConfig : option KeyValueTags;
  IgnoreTagsConfig : KeyValueTags -> KeyValueTags;
  Partition : string;
  Region : string;
  AccountID : string
}.

(** ** The monad of callbacks: state passing over the history *)

Definition M (A : Type) : Type := World -> A * World.

Global Instance M_ret : MRet M := fun A a w => (a, w).
Global Instance M_bind : MBind M :=
  fun A B f m w => let '(a, w') := m w in f a w'.

(** One SDK call: the handler answers from the history, the call is
    appended to it. *)
Definition invoke {A} (answer : World -> A) (c : Call) : M A :=
  fun w => (answer w, w ++ [c]).

Definition history : M World := fun w => (w, w).

(** ** WAF regional rule data source *)

(** The listing loop of [dataSourceAwsWafRegionalRuleRead].  The Go loop
    has no bound of its own: it runs for as long as the service hands out
    a next marker.  [fuel] bounds the number of pages requested; [None]
    means the loop is still running when the fuel is spent.  The loop ends
    with the error that makes the function return, or with the rules
    collected when it breaks. *)
Fixpoint listRulesLoop (conn : WAFRegionalConn) (fuel : nat) (name : string)
    (input : waf.ListRulesInput) (rules : list waf.RuleSummary)
    : M (option (option error * list waf.RuleSummary)) :=
  match fuel with
  | O => mret None
  | S fuel' =>
      r ← invoke (fun w => onListRules conn w input) (ListRules input);
      match r with
      | Err err =>
          let e := AwsErr err in
          mret (Some (Some (Wrapf ("error reading WAF Rule: " +:+ ErrorString e) e), rules))
      | Ok output =>
          let rules' :=
            rules ++ filter (fun rule => StringValue (waf.Name rule) = name) (waf.Rules output) in
          match waf.OutNextMarker output with
          | None => mret (Some (None, rules'))
          | Some marker =>
              listRulesLoop conn fuel' name (waf.mkListRulesInput (Some marker)) rules'
          end
      end
  end.

(** The three-way test on [len(rules)] followed by [rules[0]] is a match
    on the shape of the list. *)
Definition dataSourceAwsWafRegionalRuleRead (fuel : nat) (d : ResourceData)
    (meta : AWSClient) : M (option (option error * ResourceData)) :=
  let conn := WAFRegional meta in
  let name := asString (Get d "name") in
  r ← listRulesLoop conn fuel name (waf.mkListRulesInput None) [];
  match r with
  | None => mret None
  | Some (Some e, _) => mret (Some (Some e, d))
  | Some (None, rules) =>
      match rules with
      | [] => mret (Some (Some (Errorf ("WAF Rule not found for name: " +:+ name)), d))
      | _ :: _ :: _ =>
          mret (Some (Some (Errorf ("multiple WAF Rules found for name: " +:+ name)), d))
      | [rule] => mret (Some (None, SetId (StringValue (waf.RuleId rule)) d))
      end
  end.

(** A listing: the pages the service hands out from a marker on, each
    answered without error, the last one without a next marker. *)
Inductive Listing (conn : WAFRegionalConn) :
    World -> option string -> list waf.ListRulesOutput -> Prop :=
| Listing_last w marker out :
    onListRules conn w (waf.mkListRulesInput marker) = Ok out ->
    waf.OutNextMarker out = None ->
    Listing conn w marker [out]
| Listing_more w marker out next rest :
    onListRules conn w (waf.mkListRulesInput marker) = Ok out ->
    waf.OutNextMarker out = Some next ->
    Listing conn (w ++ [ListRules (waf.mkListRulesInput marker)]) (Some next) rest ->
    Listing conn w marker (out :: rest).

(** The requests that walk a listing: the first carries the start marker,
    each later one the marker of the page before it. *)
Fixpoint walk (marker : option string) (pages : list waf.ListRulesOutput) : list Call :=
  match pages with
  | [] => []
  | out :: rest => ListRules (waf.mkListRulesInput marker) :: walk (waf.OutNextMarker out) rest
  end.

Definition matching (name : string) (pages : list waf.ListRulesOutput)
    : list waf.RuleSummary :=
  filter (fun rule => StringValue (waf.Name rule) = name) (concat (map waf.Rules pages)).

(** ** Collaborators outside the four source files *)

(** Modelled from the spec: the tag-merge primitive [MergeTags] of the tag
    helper library, which is not among the sources.  The spec describes the
    tag set as "merged from a process-wide default-tags configuration and
    the resource's own declared tags", being "the union with resource-level
    tags taking precedence on key collision".  Without a default-tags
    configuration the resource's tags are returned as they are. *)
Definition MergeTags (defaultTagsConfig : option KeyValueTags) (tags : KeyValueTags)
    : KeyValueTags :=
  match defaultTagsConfig with
  | None => tags
  | Some defaults => tags ∪ defaults
  end.

(** Modelled from the spec: [IgnoreAws] of the tag helper library, which is
    not among the sources and of which the spec says nothing beyond naming
    the library.  It is modelled by what its name says: the tags whose key
    carries the prefix reserved to AWS are dropped. *)
Definition IgnoreAws (tags : KeyValueTags) : KeyValueTags :=
  filter (fun kv => HasPrefix kv.1 AwsTagKeyPrefix = false) tags.

(** What remains of the collaborators is kept abstract:
    - [UniqueId] and [PrefixedUniqueId] of the plugin framework, which
      depend on the moment they are called at;
    - [attemptsWithin], the number of attempts the retry primitive of the
      framework makes before a ceiling passes;
    - [RemoveDefaultConfig] of the tag helper library;
    - [ec2TagSpecificationsFromKeyValueTags], which lives in another file
      of the provider. *)
Record Externals : Type := mkExternals {
  UniqueId : World -> string;
  PrefixedUniqueId : World -> string -> string;
  attemptsWithin : Duration -> nat;
  RemoveDefaultConfig : option KeyValueTags -> KeyValueTags -> KeyValueTags;
  ec2TagSpecificationsFromKeyValueTags : KeyValueTags -> string -> list ec2.TagSpecification
}.

(** [*resource.RetryError] and its two makers, which give [nil] for a
    [nil] error. *)
Record RetryError : Type := mkRetryError {
  RetryErr : error;
  Retryable : bool
}.

Definition RetryableError (err : option error) : option RetryError :=
  match err with
  | None => None
  | Some e => Some (mkRetryError e true)
  end.

Definition NonRetryableError (err : option error) : option RetryError :=
  match err with
  | None => None
  | Some e => Some (mkRetryError e false)
  end.

(** Modelled from the spec: the "retry-until-timeout primitive"
    [resource.Retry] of the plugin framework.  The function is called again
    for as long as it reports a retryable error; success and a
    non-retryable error end the loop at once; when the ceiling passes
    the loop ends with the time-out error.  The ceiling is a span of real
    time: it enters the model as the number of attempts made within it. *)
Fixpoint retryLoop (attempts : nat) (f : M (option RetryError)) : M (option error) :=
  match attempts with
  | O => mret (Some TimeoutError)
  | S attempts' =>
      r ← f;
      match r with
      | None => mret None
      | Some rerr =>
          if Retryable rerr then retryLoop attempts' f else mret (Some (RetryErr rerr))
      end
  end.

Definition Retry (ext : Externals) (timeout : Duration) (f : M (option RetryError))
    : M (option error) :=
  retryLoop (attemptsWithin ext timeout) f.

(** Modelled from the spec: [tfresource.TimedOut], which is not among the
    sources: it recognises the time-out error of the retry primitive. *)
Definition TimedOut (err : option error) : bool :=
  match err with
  | Some TimeoutError => true
  | _ => false
  end.

(** [arn.ARN{...}.String()] *)
Definition ARNString (partition service region accountID resource : string) : string :=
  "arn:" +:+ partition +:+ ":" +:+ service +:+ ":" +:+ region +:+ ":" +:+ accountID
    +:+ ":" +:+ resource.

(** [flex.ExpandStringSet]: the members of a set of strings, as a slice. *)
Definition ExpandStringSet (s : gset string) : list string := elements s.

(** ** Access Analyzer analyzer *)

(** Maximum amount of time to wait for Organizations eventual consistency
    on creation. *)
Definition accessAnalyzerOrganizationCreationTimeout : Duration := 10 * Minute.

Section AccessAnalyzer.
Variable ext : Externals.

Definition resourceAwsAccessAnalyzerAnalyzerRead (d : ResourceData) (meta : AWSClient)
    : M (option error * ResourceData) :=
  let conn := AccessAnalyzer meta in
  let defaultTagsConfig := DefaultTagsConfig meta in
  let ignoreTagsConfig := IgnoreTagsConfig meta in
  r ← invoke (fun w => onGetAnalyzer conn w (Id d)) (GetAnalyzer (Id d));
  let err := errOf r in
  if negb (IsNewResource d)
     && ErrCodeEquals err accessanalyzer.ErrCodeResourceNotFoundException
  then mret (None, SetId "" d)
  else
    match r with
    | Err err =>
        let e := AwsErr err in
        mret (Some (Errorf ("error getting Access Analyzer Analyzer (" +:+ Id d
                              +:+ "): " +:+ ErrorString e)), d)
    | Ok None | Ok (Some (accessanalyzer.mkGetAnalyzerOutput None)) =>
        mret (Some (Errorf ("error getting Access Analyzer Analyzer (" +:+ Id d
                              +:+ "): empty response")), d)
    | Ok (Some (accessanalyzer.mkGetAnalyzerOutput (Some analyzer))) =>
        let d := Set_ "analyzer_name" (VString (StringValue (accessanalyzer.Name analyzer))) d in
        let d := Set_ "arn" (VString (StringValue (accessanalyzer.Arn analyzer))) d in
        let tags := ignoreTagsConfig (IgnoreAws (accessanalyzer.SummaryTags analyzer)) in
        let d := Set_ "tags" (VMap (RemoveDefaultConfig ext defaultTagsConfig tags)) d in
        let d := Set_ "tags_all" (VMap tags) d in
        let d := Set_ "type" (VString (StringValue (accessanalyzer.SummaryType analyzer))) d in
        mret (None, d)
    end.

(** The request [resourceAwsAccessAnalyzerAnalyzerCreate] builds. *)
Definition createAnalyzerInput (d : ResourceData) (meta : AWSClient) (w : World)
    : accessanalyzer.CreateAnalyzerInput :=
  let tags := MergeTags (DefaultTagsConfig meta) (asMap (Get d "tags")) in
  accessanalyzer.mkCreateAnalyzerInput
    (asString (Get d "analyzer_name"))
    (UniqueId ext w)
    (IgnoreAws tags)
    (asString (Get d "type")).

(** The function handed to the retry primitive. *)
Definition createAnalyzerAttempt (conn : AccessAnalyzerConn)
    (input : accessanalyzer.CreateAnalyzerInput) : M (option RetryError) :=
  err ← invoke (fun w => sdk (onCreateAnalyzer conn w input)) (CreateAnalyzer input);
  if ErrMessageContains err accessanalyzer.ErrCodeValidationException
       "You must create an organization"
  then mret (RetryableError err)
  else
    match err with
    | Some _ => mret (NonRetryableError err)
    | None => mret None
    end.

Definition resourceAwsAccessAnalyzerAnalyzerCreate (d : ResourceData) (meta : AWSClient)
    : M (option error * ResourceData) :=
  let conn := AccessAnalyzer meta in
  let analyzerName := asString (Get d "analyzer_name") in
  w0 ← history;
  let input := createAnalyzerInput d meta w0 in
  err ← Retry ext accessAnalyzerOrganizationCreationTimeout
          (createAnalyzerAttempt conn input);
  err ← (if TimedOut err
         then invoke (fun w => sdk (onCreateAnalyzer conn w input)) (CreateAnalyzer input)
         else mret err);
  match err with
  | Some e =>
      mret (Some (Errorf ("error creating Access Analyzer Analyzer (" +:+ analyzerName
                            +:+ "): " +:+ ErrorString e)), d)
  | None =>
      resourceAwsAccessAnalyzerAnalyzerRead (SetId analyzerName d) meta
  end.

Definition resourceAwsAccessAnalyzerAnalyzerUpdate (d : ResourceData) (meta : AWSClient)
    : M (option error * ResourceData) :=
  let conn := AccessAnalyzer meta in
  err ← (if HasChange d "tags_all"
         then
           let '(o, n) := GetChange d "tags_all" in
           let arn := asString (Get d "arn") in
           invoke (fun w => onAccessanalyzerUpdateTags conn w arn o n)
                  (AccessanalyzerUpdateTags arn o n)
         else mret None);
  match err with
  | Some e =>
      mret (Some (Errorf ("error updating Access Analyzer Analyzer (" +:+ Id d
                            +:+ ") tags: " +:+ ErrorString e)), d)
  | None => resourceAwsAccessAnalyzerAnalyzerRead d meta
  end.

Definition resourceAwsAccessAnalyzerAnalyzerDelete (d : ResourceData) (meta : AWSClient)
    : M (option error * ResourceData) :=
  let conn := AccessAnalyzer meta in
  w0 ← history;
  let input := accessanalyzer.mkDeleteAnalyzerInput (Id d) (UniqueId ext w0) in
  err ← invoke (fun w => sdk (onDeleteAnalyzer conn w input)) (DeleteAnalyzer input);
  if ErrMessageContains err accessanalyzer.ErrCodeResourceNotFoundException ""
  then mret (None, d)
  else
    match err with
    | Some e =>
        mret (Some (Errorf ("error deleting Access Analyzer Analyzer (" +:+ Id d
                              +:+ "): " +:+ ErrorString e)), d)
    | None => mret (None, d)
    end.
End AccessAnalyzer.

(** ** Redshift snapshot schedule *)

Section RedshiftSnapshotSchedule.
Variable ext : Externals.

Definition resourceAwsRedshiftSnapshotScheduleRead (d : ResourceData) (meta : AWSClient)
    : M (option error * ResourceData) :=
  let conn := Redshift meta in
  let defaultTagsConfig := DefaultTagsConfig meta in
  let ignoreTagsConfig := IgnoreTagsConfig meta in
  r ← invoke (fun w => onDescribeSnapshotSchedules conn w (Id d))
             (DescribeSnapshotSchedules (Id d));
  match r with
  | Err err =>
        let e := AwsErr err in
      mret (Some (Errorf ("Error describing Redshift Cluster Snapshot Schedule " +:+ Id d
                            +:+ ": " +:+ ErrorString e)), d)
  | Ok resp =>
      (* [len(resp.SnapshotSchedules) != 1], then [resp.SnapshotSchedules[0]] *)
      match redshift.SnapshotSchedules resp with
      | [snapshotSchedule] =>
          let d := Set_ "identifier"
                     (VString (StringValue (redshift.SchedIdentifier snapshotSchedule))) d in
          let d := Set_ "description"
                     (VString (StringValue (redshift.SchedDescription snapshotSchedule))) d in
          let d := Set_ "definitions"
                     (VSet (list_to_set (redshift.SchedDefinitions snapshotSchedule))) d in
          let tags := ignoreTagsConfig (IgnoreAws (redshift.SchedTags snapshotSchedule)) in
          let d := Set_ "tags" (VMap (RemoveDefaultConfig ext defaultTagsConfig tags)) d in
          let d := Set_ "tags_all" (VMap tags) d in
          let arn := ARNString (Partition meta) "redshift" (Region meta) (AccountID meta)
                       ("snapshotschedule:" +:+ Id d) in
          mret (None, Set_ "arn" (VString arn) d)
      | _ => mret (None, SetId "" d)
      end
  end.

(** The identifier [resourceAwsRedshiftSnapshotScheduleCreate] asks for. *)
Definition scheduleIdentifier (d : ResourceData) (w : World) : string :=
  let '(v, ok) := GetOk d "identifier" in
  if ok then asString v
  else
    let '(v, ok) := GetOk d "identifier_prefix" in
    if ok then PrefixedUniqueId ext w (asString v) else UniqueId ext w.

Definition createSnapshotScheduleInput (d : ResourceData) (meta : AWSClient) (w : World)
    : redshift.CreateSnapshotScheduleInput :=
  let tags := MergeTags (DefaultTagsConfig meta) (asMap (Get d "tags")) in
  redshift.mkCreateSnapshotScheduleInput
    (scheduleIdentifier d w)
    (ExpandStringSet (asSet (Get d "definitions")))
    (IgnoreAws tags)
    (let '(attr, ok) := GetOk d "description" in
     if ok then Some (asString attr) else None).

Definition resourceAwsRedshiftSnapshotScheduleCreate (d : ResourceData) (meta : AWSClient)
    : M (option error * ResourceData) :=
  let conn := Redshift meta in
  w0 ← history;
  let createOpts := createSnapshotScheduleInput d meta w0 in
  r ← invoke (fun w => onCreateSnapshotSchedule conn w createOpts)
             (CreateSnapshotSchedule createOpts);
  match r with
  | Err err =>
        let e := AwsErr err in
      mret (Some (Errorf ("Error creating Redshift Snapshot Schedule: " +:+ ErrorString e)), d)
  | Ok resp =>
      resourceAwsRedshiftSnapshotScheduleRead (SetId (StringValue resp) d) meta
  end.

Definition resourceAwsRedshiftSnapshotScheduleUpdate (d : ResourceData) (meta : AWSClient)
    : M (option error * ResourceData) :=
  let conn := Redshift meta in
  err ← (if HasChange d "tags_all"
         then
           let '(o, n) := GetChange d "tags_all" in
           let arn := asString (Get d "arn") in
           invoke (fun w => onRedshiftUpdateTags conn w arn o n) (RedshiftUpdateTags arn o n)
         else mret None);
  match err with
  | Some e =>
      mret (Some (Errorf ("error updating Redshift Snapshot Schedule ("
                            +:+ asString (Get d "arn") +:+ ") tags: " +:+ ErrorString e)), d)
  | None =>
      if HasChange d "definitions"
      then
        let modifyOpts :=
          redshift.mkModifySnapshotScheduleInput
            (Id d) (ExpandStringSet (asSet (Get d "definitions"))) in
        err ← invoke (fun w => sdk (onModifySnapshotSchedule conn w modifyOpts))
                     (ModifySnapshotSchedule modifyOpts);
        if ErrMessageContains err redshift.ErrCodeSnapshotScheduleNotFoundFault ""
        then mret (None, SetId "" d)
        else
          match err with
          | Some e =>
              mret (Some (Errorf ("Error modifying Redshift Snapshot Schedule " +:+ Id d
                                    +:+ ": " +:+ ErrorString e)), d)
          | None => resourceAwsRedshiftSnapshotScheduleRead d meta
          end
      else resourceAwsRedshiftSnapshotScheduleRead d meta
  end.

(** The first [for] loop of the clean-up: one disassociation per cluster.
    The two not-found codes let the loop go on to the next cluster. *)
Fixpoint disassociateLoop (conn : RedshiftConn) (scheduleIdentifier : string)
    (clusters : list redshift.ClusterAssociatedToSchedule) : M (option error) :=
  match clusters with
  | [] => mret None
  | associatedCluster :: rest =>
      let input :=
        redshift.mkModifyClusterSnapshotScheduleInput
          (redshift.ClusterIdentifier associatedCluster) scheduleIdentifier true in
      err ← invoke (fun w => sdk (onModifyClusterSnapshotSchedule conn w input))
                   (ModifyClusterSnapshotSchedule input);
      if ErrMessageContains err redshift.ErrCodeClusterNotFoundFault ""
      then disassociateLoop conn scheduleIdentifier rest
      else if ErrMessageContains err redshift.ErrCodeSnapshotScheduleNotFoundFault ""
      then disassociateLoop conn scheduleIdentifier rest
      else
        match err with
        | Some e =>
            mret (Some (Errorf
              ("Error disassociate Redshift Cluster ("
                 +:+ StringValue (redshift.ClusterIdentifier associatedCluster)
                 +:+ ") and Snapshot Schedule (" +:+ scheduleIdentifier
                 +:+ ") Association: " +:+ ErrorString e)))
        | None => disassociateLoop conn scheduleIdentifier rest
        end
  end.

(** Modelled from the spec: [waitForRedshiftSnapshotScheduleAssociationDestroy]
    lives in another file of the provider.  The spec has the clean-up
    "poll until each detachment is externally confirmed (bounded wait)":
    the wait is one exchange with the service, which confirms the
    detachment or reports that the bound passed or the polling failed. *)
Definition waitForRedshiftSnapshotScheduleAssociationDestroy (conn : RedshiftConn)
    (timeout : Duration) (clusterIdentifier scheduleIdentifier : string) : M (option error) :=
  invoke (fun w => onWaitAssociationDestroy conn w timeout clusterIdentifier scheduleIdentifier)
         (WaitAssociationDestroy timeout clusterIdentifier scheduleIdentifier).

(** The second [for] loop of the clean-up: one wait per cluster. *)
Fixpoint waitLoop (conn : RedshiftConn) (scheduleIdentifier : string)
    (clusters : list redshift.ClusterAssociatedToSchedule) : M (option error) :=
  match clusters with
  | [] => mret None
  | associatedCluster :: rest =>
      err ← waitForRedshiftSnapshotScheduleAssociationDestroy conn (75 * Minute)
              (StringValue (redshift.ClusterIdentifier associatedCluster)) scheduleIdentifier;
      match err with
      | Some e => mret (Some e)
      | None => waitLoop conn scheduleIdentifier rest
      end
  end.

Definition resourceAwsRedshiftSnapshotScheduleDeleteAllAssociatedClusters
    (conn : RedshiftConn) (scheduleIdentifier : string) : M (option error) :=
  r ← invoke (fun w => onDescribeSnapshotSchedules conn w scheduleIdentifier)
             (DescribeSnapshotSchedules scheduleIdentifier);
  if ErrMessageContains (errOf r) redshift.ErrCodeSnapshotScheduleNotFoundFault ""
  then mret None
  else
    match r with
    | Err err =>
        let e := AwsErr err in
        mret (Some (Errorf ("Error describing Redshift Cluster Snapshot Schedule "
                              +:+ scheduleIdentifier +:+ ": " +:+ ErrorString e)))
    | Ok resp =>
        match redshift.SnapshotSchedules resp with
        | [snapshotSchedule] =>
            err ← disassociateLoop conn scheduleIdentifier
                    (redshift.AssociatedClusters snapshotSchedule);
            match err with
            | Some e => mret (Some e)
            | None =>
                waitLoop conn scheduleIdentifier (redshift.AssociatedClusters snapshotSchedule)
            end
        | _ => mret None
        end
    end.

Definition resourceAwsRedshiftSnapshotScheduleDelete (d : ResourceData) (meta : AWSClient)
    : M (option error * ResourceData) :=
  let conn := Redshift meta in
  err ← (if asBool (Get d "force_destroy")
         then resourceAwsRedshiftSnapshotScheduleDeleteAllAssociatedClusters conn (Id d)
         else mret None);
  match err with
  | Some e => mret (Some e, d)
  | None =>
      err ← invoke (fun w => sdk (onDeleteSnapshotSchedule conn w (Id d)))
                   (DeleteSnapshotSchedule (Id d));
      if ErrMessageContains err redshift.ErrCodeSnapshotScheduleNotFoundFault ""
      then mret (None, d)
      else
        match err with
        | Some e =>
            mret (Some (Errorf ("Error deleting Redshift Snapshot Schedule " +:+ Id d
                                  +:+ ": " +:+ ErrorString e)), d)
        | None => mret (None, d)
        end
  end.
End RedshiftSnapshotSchedule.

(** ** EC2 traffic mirror filter *)

Section Ec2TrafficMirrorFilter.
Variable ext : Externals.

Definition resourceAwsEc2TrafficMirrorFilterRead (d : ResourceData) (meta : AWSClient)
    : M (option error * ResourceData) :=
  let conn := EC2 meta in
  let defaultTagsConfig := DefaultTagsConfig meta in
  let ignoreTagsConfig := IgnoreTagsConfig meta in
  r ← invoke (fun w => onDescribeTrafficMirrorFilters conn w [Id d])
             (DescribeTrafficMirrorFilters [Id d]);
  if ErrMessageContains (errOf r) ec2.ErrCodeInvalidTrafficMirrorFilterIdNotFound ""
  then mret (None, SetId "" d)
  else
    match r with
    | Err err =>
        let e := AwsErr err in
        mret (Some (Errorf ("Error describing traffic mirror filter " +:+ Id d
                              +:+ ": " +:+ ErrorString e)), d)
    | Ok out =>
        (* [len(out.TrafficMirrorFilters) == 0], then [out.TrafficMirrorFilters[0]] *)
        match ec2.TrafficMirrorFilters out with
        | [] => mret (None, SetId "" d)
        | trafficMirrorFilter :: _ =>
            let d := Set_ "description"
                       (VString (StringValue (ec2.FilterDescription trafficMirrorFilter))) d in
            let tags := ignoreTagsConfig (IgnoreAws (ec2.FilterTags trafficMirrorFilter)) in
            let d := Set_ "tags" (VMap (RemoveDefaultConfig ext defaultTagsConfig tags)) d in
            let d := Set_ "tags_all" (VMap tags) d in
            let d := Set_ "network_services"
                       (VSet (list_to_set
                                (map StringValue (ec2.NetworkServices trafficMirrorFilter)))) d in
            let arn := ARNString (Partition meta) ec2.ServiceName (Region meta)
                         (AccountID meta) ("traffic-mirror-filter/" +:+ Id d) in
            mret (None, Set_ "arn" (VString arn) d)
        end
    end.

(** The request [resourceAwsEc2TrafficMirrorFilterCreate] builds. *)
Definition createTrafficMirrorFilterInput (d : ResourceData) (meta : AWSClient)
    : ec2.CreateTrafficMirrorFilterInput :=
  let tags := MergeTags (DefaultTagsConfig meta) (asMap (Get d "tags")) in
  ec2.mkCreateTrafficMirrorFilterInput
    (let '(description, ok) := GetOk d "description" in
     if ok then Some (asString description) else None)
    (if bool_decide (tags ≠ ∅)
     then ec2TagSpecificationsFromKeyValueTags ext tags ec2.ResourceTypeTrafficMirrorFilter
     else []).

Definition resourceAwsEc2TrafficMirrorFilterCreate (d : ResourceData) (meta : AWSClient)
    : M (option error * ResourceData) :=
  let conn := EC2 meta in
  let input := createTrafficMirrorFilterInput d meta in
  r ← invoke (fun w => onCreateTrafficMirrorFilter conn w input)
             (CreateTrafficMirrorFilter input);
  match r with
  | Err err =>
        let e := AwsErr err in
      mret (Some (Errorf ("Error while creating traffic filter " +:+ ErrorString e)), d)
  | Ok out =>
      let d := SetId (StringValue (ec2.TrafficMirrorFilterId (ec2.CreatedFilter out))) d in
      let '(v, ok) := GetOk d "network_services" in
      err ← (if ok
             then
               let input :=
                 ec2.mkModifyTrafficMirrorFilterNetworkServicesInput
                   (Id d) (Some (ExpandStringSet (asSet v))) None in
               invoke (fun w => sdk (onModifyTrafficMirrorFilterNetworkServices conn w input))
                      (ModifyTrafficMirrorFilterNetworkServices input)
             else mret None);
      match err with
      | Some e =>
          mret (Some (Wrapf ("error modifying EC2 Traffic Mirror Filter (" +:+ Id d
                               +:+ ") network services: " +:+ ErrorString e) e), d)
      | None => resourceAwsEc2TrafficMirrorFilterRead d meta
      end
  end.

(** The request of the network-services group of
    [resourceAwsEc2TrafficMirrorFilterUpdate]. *)
Definition modifyNetworkServicesInput (d : ResourceData)
    : ec2.ModifyTrafficMirrorFilterNetworkServicesInput :=
  let '(o, n) := GetChange d "network_services" in
  let newServices := asSet n ∖ asSet o in
  let removeServices := asSet o ∖ asSet n in
  ec2.mkModifyTrafficMirrorFilterNetworkServicesInput
    (Id d)
    (if bool_decide (0 < size newServices)%nat
     then Some (ExpandStringSet newServices) else None)
    (if bool_decide (0 < size removeServices)%nat
     then Some (ExpandStringSet removeServices) else None).

Definition resourceAwsEc2TrafficMirrorFilterUpdate (d : ResourceData) (meta : AWSClient)
    : M (option error * ResourceData) :=
  let conn := EC2 meta in
  err ← (if HasChange d "network_services"
         then
           let input := modifyNetworkServicesInput d in
           invoke (fun w => sdk (onModifyTrafficMirrorFilterNetworkServices conn w input))
                  (ModifyTrafficMirrorFilterNetworkServices input)
         else mret None);
  match err with
  | Some e =>
      mret (Some (Wrapf ("error modifying EC2 Traffic Mirror Filter (" +:+ Id d
                           +:+ ") network services: " +:+ ErrorString e) e), d)
  | None =>
      err ← (if HasChange d "tags_all"
             then
               let '(o, n) := GetChange d "tags_all" in
               invoke (fun w => onEc2UpdateTags conn w (Id d) o n) (Ec2UpdateTags (Id d) o n)
             else mret None);
      match err with
      | Some e =>
          mret (Some (Errorf ("error updating EC2 Traffic Mirror Filter (" +:+ Id d
                                +:+ ") tags: " +:+ ErrorString e)), d)
      | None => resourceAwsEc2TrafficMirrorFilterRead d meta
      end
  end.

Definition resourceAwsEc2TrafficMirrorFilterDelete (d : ResourceData) (meta : AWSClient)
    : M (option error * ResourceData) :=
  let conn := EC2 meta in
  err ← invoke (fun w => sdk (onDeleteTrafficMirrorFilter conn w (Id d)))
               (DeleteTrafficMirrorFilter (Id d));
  match err with
  | Some e =>
      mret (Some (Errorf ("Error deleting traffic mirror filter " +:+ Id d
                            +:+ ": " +:+ ErrorString e)), d)
  | None => mret (None, d)
  end.
End Ec2TrafficMirrorFilter.

(** * Concrete services used to exercise the callbacks *)

Definition quietWAFRegional : WAFRegionalConn :=
  mkWAFRegionalConn (fun _ _ => Ok (waf.mkListRulesOutput [] None)).

Definition quietAccessAnalyzer : AccessAnalyzerConn :=
  mkAccessAnalyzerConn
    (fun _ _ => None)
    (fun _ _ => Ok None)
    (fun _ _ => None)
    (fun _ _ _ _ => None).

Definition quietRedshift : RedshiftConn :=
  mkRedshiftConn
    (fun _ input => Ok (Some (redshift.ScheduleIdentifier input)))
    (fun _ _ => Ok (redshift.mkDescribeSnapshotSchedulesOutput []))
    (fun _ _ => None)
    (fun _ _ => None)
    (fun _ _ _ _ => None)
    (fun _ _ => None)
    (fun _ _ _ _ => None).

Definition quietEC2 : EC2Conn :=
  mkEC2Conn
    (fun _ _ => Ok (ec2.mkCreateTrafficMirrorFilterOutput
                      (ec2.mkTrafficMirrorFilter (Some "tmf-1") None ∅ [])))
    (fun _ _ => None)
    (fun _ _ => Ok (ec2.mkDescribeTrafficMirrorFiltersOutput []))
    (fun _ _ => None)
    (fun _ _ _ _ => None).

Definition clientOf (waf : WAFRegionalConn) (aa : AccessAnalyzerConn) (rs : RedshiftConn)
    (e : EC2Conn) (defaults : option KeyValueTags) : AWSClient :=
  mkAWSClient waf aa rs e defaults (fun tags => tags) "aws" "eu-west-1" "123456789012".

Definition someExternals : Externals :=
  mkExternals
    (fun _ => "terraform-0001")
    (fun _ prefix => prefix +:+ "0001")
    (fun _ => 3%nat)
    (fun defaults tags =>
       match defaults with
       | None => tags
       | Some dt => filter (fun kv => dt !! kv.1 ≠ Some kv.2) tags
       end)
    (fun tags t => [ec2.mkTagSpecification t (IgnoreAws tags)]).

Definition resourceDataOf (id : string) (isNew : bool) (attributes : list (string * Value))
    : ResourceData :=
  mkResourceData id isNew ∅ (list_to_map attributes).

(** A rule listing in two pages; two of the rules are named [foo]. *)
Definition twoPages : WAFRegionalConn :=
  mkWAFRegionalConn (fun _ input =>
    match waf.NextMarker input with
    | None =>
        Ok (waf.mkListRulesOutput
              [waf.mkRuleSummary (Some "foo") (Some "rule-1");
               waf.mkRuleSummary (Some "bar") (Some "rule-2")]
              (Some "page-2"))
    | Some _ =>
        Ok (waf.mkListRulesOutput
              [waf.mkRuleSummary (Some "foo") (Some "rule-3");
               waf.mkRuleSummary None (Some "rule-4")]
              None)
    end).

Definition twoPagesClient : AWSClient :=
  clientOf twoPages quietAccessAnalyzer quietRedshift quietEC2 None.

(** Services on which every object is reported gone. *)
Definition goneAccessAnalyzer : AccessAnalyzerConn :=
  mkAccessAnalyzerConn
    (fun _ _ => None)
    (fun _ _ => Err (mkAwsErr accessanalyzer.ErrCodeResourceNotFoundException "no such analyzer"))
    (fun _ _ => Some (mkAwsErr accessanalyzer.ErrCodeResourceNotFoundException "no such analyzer"))
    (fun _ _ _ _ => None).

Definition goneRedshift : RedshiftConn :=
  mkRedshiftConn
    (fun _ input => Ok (Some (redshift.ScheduleIdentifier input)))
    (fun _ _ => Err (mkAwsErr redshift.ErrCodeSnapshotScheduleNotFoundFault "no such schedule"))
    (fun _ _ => Some (mkAwsErr redshift.ErrCodeSnapshotScheduleNotFoundFault "no such schedule"))
    (fun _ _ => Some (mkAwsErr redshift.ErrCodeSnapshotScheduleNotFoundFault "no such schedule"))
    (fun _ _ _ _ => None)
    (fun _ _ => Some (mkAwsErr redshift.ErrCodeSnapshotScheduleNotFoundFault "no such schedule"))
    (fun _ _ _ _ => None).

Definition goneEC2 : EC2Conn :=
  mkEC2Conn
    (fun _ _ => Ok (ec2.mkCreateTrafficMirrorFilterOutput
                      (ec2.mkTrafficMirrorFilter (Some "tmf-1") None ∅ [])))
    (fun _ _ => None)
    (fun _ _ => Err (mkAwsErr ec2.ErrCodeInvalidTrafficMirrorFilterIdNotFound "no such filter"))
    (fun _ _ => Some (mkAwsErr ec2.ErrCodeInvalidTrafficMirrorFilterIdNotFound "no such filter"))
    (fun _ _ _ _ => None).

Definition goneClient : AWSClient :=
  clientOf quietWAFRegional goneAccessAnalyzer goneRedshift goneEC2 None.

(** The condition under which the creation of an analyzer is tried again. *)
Definition organizationNotReady (err : option error) : bool :=
  ErrMessageContains err accessanalyzer.ErrCodeValidationException
    "You must create an organization".

(** The answer to the [i]-th of a run of equal [CreateAnalyzer] calls
    that starts at the history [w]. *)
Definition createAnswer (conn : AccessAnalyzerConn)
    (input : accessanalyzer.CreateAnalyzerInput) (w : World) (i : nat) : option error :=
  sdk (onCreateAnalyzer conn (w ++ replicate i (CreateAnalyzer input)) input).

(** An account whose organization is not ready for the first [pending]
    creation calls; the calls after these get the answer [final]. *)
Definition pendingAccessAnalyzer (pending : nat) (final : option awserr) : AccessAnalyzerConn :=
  mkAccessAnalyzerConn
    (fun w _ =>
       if bool_decide (length w < pending)%nat
       then Some (mkAwsErr accessanalyzer.ErrCodeValidationException
                    "You must create an organization before creating an organization analyzer")
       else final)
    (fun _ name =>
       Ok (Some (accessanalyzer.mkGetAnalyzerOutput
                   (Some (accessanalyzer.mkAnalyzerSummary
                            (Some name) (Some ("arn:aws:access-analyzer:::analyzer/" +:+ name))
                            ∅ (Some accessanalyzer.TypeOrganization))))))
    (fun _ _ => None)
    (fun _ _ _ _ => None).

Definition pendingClient (pending : nat) (final : option awserr) : AWSClient :=
  clientOf quietWAFRegional (pendingAccessAnalyzer pending final) quietRedshift quietEC2 None.

Definition organizationAnalyzer : ResourceData :=
  resourceDataOf "" true
    [("analyzer_name", VString "org"); ("type", VString accessanalyzer.TypeOrganization)].

(** What Create does once the creation call has its last answer [err]:
    an error is returned with the analyzer name in its message, success
    sets the identifier and hands over to Read. *)
Definition afterCreateAnalyzer (ext : Externals) (d : ResourceData) (meta : AWSClient)
    (err : option error) : M (option error * ResourceData) :=
  let analyzerName := asString (Get d "analyzer_name") in
  match err with
  | Some e =>
      mret (Some (Errorf ("error creating Access Analyzer Analyzer (" +:+ analyzerName
                            +:+ "): " +:+ ErrorString e)), d)
  | None => resourceAwsAccessAnalyzerAnalyzerRead ext (SetId analyzerName d) meta
  end.

(** The calls of the clean-up, per associated cluster. *)
Definition disassociateInput (scheduleIdentifier : string)
    (c : redshift.ClusterAssociatedToSchedule) : redshift.ModifyClusterSnapshotScheduleInput :=
  redshift.mkModifyClusterSnapshotScheduleInput
    (redshift.ClusterIdentifier c) scheduleIdentifier true.

Definition disassociateCall (scheduleIdentifier : string)
    (c : redshift.ClusterAssociatedToSchedule) : Call :=
  ModifyClusterSnapshotSchedule (disassociateInput scheduleIdentifier c).

Definition waitCall (scheduleIdentifier : string)
    (c : redshift.ClusterAssociatedToSchedule) : Call :=
  WaitAssociationDestroy (75 * Minute) (StringValue (redshift.ClusterIdentifier c))
    scheduleIdentifier.

(** The answer to the disassociation of the [i]-th cluster, the clusters
    before it having been gone through from the history [w]. *)
Definition disassociateAnswer (conn : RedshiftConn) (scheduleIdentifier : string)
    (clusters : list redshift.ClusterAssociatedToSchedule) (w : World) (i : nat)
    : option error :=
  match clusters !! i with
  | Some c =>
      sdk (onModifyClusterSnapshotSchedule conn
             (w ++ map (disassociateCall scheduleIdentifier) (take i clusters))
             (disassociateInput scheduleIdentifier c))
  | None => None
  end.

(** Likewise for the wait on the [i]-th cluster. *)
Definition waitAnswer (conn : RedshiftConn) (scheduleIdentifier : string)
    (clusters : list redshift.ClusterAssociatedToSchedule) (w : World) (i : nat)
    : option error :=
  match clusters !! i with
  | Some c =>
      onWaitAssociationDestroy conn
        (w ++ map (waitCall scheduleIdentifier) (take i clusters))
        (75 * Minute) (StringValue (redshift.ClusterIdentifier c)) scheduleIdentifier
  | None => None
  end.

(** The two answers on which the disassociation loop goes on to the next
    cluster although the call failed. *)
Definition skipped (err : option error) : bool :=
  ErrMessageContains err redshift.ErrCodeClusterNotFoundFault ""
  || ErrMessageContains err redshift.ErrCodeSnapshotScheduleNotFoundFault "".

Definition passes (err : option error) : bool :=
  match err with
  | None => true
  | Some _ => skipped err
  end.

(** A service that describes the given schedules whatever the identifier
    asked for, and answers a disassociation by the cluster it names. *)
Definition redshiftWith (schedules : list redshift.SnapshotSchedule)
    (onModify : option string -> option awserr) : RedshiftConn :=
  mkRedshiftConn
    (fun _ input => Ok (Some (redshift.ScheduleIdentifier input)))
    (fun _ _ => Ok (redshift.mkDescribeSnapshotSchedulesOutput schedules))
    (fun _ _ => None)
    (fun _ input => onModify (redshift.McClusterIdentifier input))
    (fun _ _ _ _ => None)
    (fun _ _ => None)
    (fun _ _ _ _ => None).

Definition nightly (clusters : list string) : redshift.SnapshotSchedule :=
  redshift.mkSnapshotSchedule (Some "nightly") None ["rate(12 hours)"] ∅
    (map (fun c => redshift.mkClusterAssociatedToSchedule (Some c)) clusters).

Definition redshiftClient (conn : RedshiftConn) : AWSClient :=
  clientOf quietWAFRegional quietAccessAnalyzer conn quietEC2 None.

Definition nightlyForced (isNew : bool) : ResourceData :=
  resourceDataOf "nightly" isNew [("force_destroy", VBool true)].

(** The cluster [lost] is reported not found, every other one detaches. *)
Definition lostCluster (c : option string) : option awserr :=
  if bool_decide (c = Some "lost")
  then Some (mkAwsErr redshift.ErrCodeClusterNotFoundFault "cluster lost not found")
  else None.

(** The cluster [busy] cannot be detached. *)
Definition busyCluster (c : option string) : option awserr :=
  if bool_decide (c = Some "busy")
  then Some (mkAwsErr "InvalidClusterState" "cluster busy is resizing")
  else None.

(** An attribute of set type: not set, or set to a set. *)
Definition isSet (v : option Value) : bool :=
  match v with
  | None | Some (VSet _) => true
  | Some _ => false
  end.

(** The calls of [resourceAwsEc2TrafficMirrorFilterUpdate] before Read:
    one per group of attributes that changed. *)
Definition networkServicesCalls (d : ResourceData) : list Call :=
  if HasChange d "network_services"
  then [ModifyTrafficMirrorFilterNetworkServices (modifyNetworkServicesInput d)]
  else [].

Definition tagsCalls (d : ResourceData) : list Call :=
  if HasChange d "tags_all"
  then [Ec2UpdateTags (Id d) (prior d !! "tags_all") (attrs d !! "tags_all")]
  else [].

(** A filter whose network services go from [{a, b}] to [{b, c}]. *)
Definition changedFilter : ResourceData :=
  mkResourceData "tmf-1" false
    (list_to_map [("network_services", VSet {["a"; "b"]})])
    (list_to_map [("network_services", VSet {["b"; "c"]})]).

Definition ec2Client (conn : EC2Conn) : AWSClient :=
  clientOf quietWAFRegional quietAccessAnalyzer quietRedshift conn None.

(** The tags of the example of the spec: default tags [{a:1}], resource
    tags [{a:2, b:3}]. *)
Definition exampleDefaults : KeyValueTags := {[ "a" := "1" ]}.
Definition exampleTags : KeyValueTags := {[ "a" := "2"; "b" := "3" ]}.

Definition exampleClient : AWSClient :=
  clientOf quietWAFRegional quietAccessAnalyzer quietRedshift quietEC2 (Some exampleDefaults).

Definition taggedResource (tags : KeyValueTags) : ResourceData :=
  resourceDataOf "" true
    [("analyzer_name", VString "example"); ("identifier", VString "example");
     ("definitions", VSet {[ "rate(12 hours)" ]}); ("tags", VMap tags)].

(** An error that is handed to the caller with the cause in its message
    and the kind of resource named. *)
Definition surfaced (err : option error) (kind : string) (cause : error) : Prop :=
  exists e,
    err = Some e
    ∧ Contains (ErrorString e) kind = true
    ∧ Contains (ErrorString e) (ErrorString cause) = true.

(** The same, the message carrying the identifier as well. *)
Definition annotated (err : option error) (kind id : string) (cause : error) : Prop :=
  surfaced err kind cause
  ∧ exists e, err = Some e ∧ Contains (ErrorString e) id = true.

(** A service on which every call fails for an internal reason. *)
Definition internalFailure : awserr := mkAwsErr "InternalFailure" "try again later".

Definition failingAccessAnalyzer : AccessAnalyzerConn :=
  mkAccessAnalyzerConn
    (fun _ _ => Some internalFailure)
    (fun _ _ => Err internalFailure)
    (fun _ _ => Some internalFailure)
    (fun _ _ _ _ => None).

Definition failingRedshift : RedshiftConn :=
  mkRedshiftConn
    (fun _ _ => Err internalFailure)
    (fun _ _ => Err internalFailure)
    (fun _ _ => Some internalFailure)
    (fun _ _ => Some internalFailure)
    (fun _ _ _ _ => None)
    (fun _ _ => Some internalFailure)
    (fun _ _ _ _ => None).

Definition failingEC2 : EC2Conn :=
  mkEC2Conn
    (fun _ _ => Err internalFailure)
    (fun _ _ => Some internalFailure)
    (fun _ _ => Err internalFailure)
    (fun _ _ => Some internalFailure)
    (fun _ _ _ _ => None).

Definition failingClient : AWSClient :=
  clientOf quietWAFRegional failingAccessAnalyzer failingRedshift failingEC2 None.

(** A snapshot schedule that asks for the identifier [nightly]. *)
Definition nightlyPlanned : ResourceData :=
  resourceDataOf "" true
    [("identifier", VString "nightly"); ("definitions", VSet {[ "rate(12 hours)" ]})].

(** An EC2 service that describes the given filters whatever is asked
    for, and on which every other call succeeds. *)
Definition ec2With (filters : list ec2.TrafficMirrorFilter) : EC2Conn :=
  mkEC2Conn
    (fun _ _ => Ok (ec2.mkCreateTrafficMirrorFilterOutput
                      (ec2.mkTrafficMirrorFilter (Some "tmf-1") None ∅ [])))
    (fun _ _ => None)
    (fun _ _ => Ok (ec2.mkDescribeTrafficMirrorFiltersOutput filters))
    (fun _ _ => None)
    (fun _ _ _ _ => None).

Definition dnsFilter : ec2.TrafficMirrorFilter :=
  ec2.mkTrafficMirrorFilter (Some "tmf-1") (Some "mirror dns") {[ "team" := "net" ]}
    [Some "amazon-dns"; Some "amazon-dns"].

(** The tags call of the Redshift Update. *)
Definition redshiftTagsCalls (d : ResourceData) : list Call :=
  if HasChange d "tags_all"
  then [RedshiftUpdateTags (asString (Get d "arn")) (prior d !! "tags_all")
          (attrs d !! "tags_all")]
  else [].

(** A Redshift service on which the update of tags fails. *)
Definition tagsFailingRedshift : RedshiftConn :=
  mkRedshiftConn
    (fun _ input => Ok (Some (redshift.ScheduleIdentifier input)))
    (fun _ _ => Ok (redshift.mkDescribeSnapshotSchedulesOutput []))
    (fun _ _ => None)
    (fun _ _ => None)
    (fun _ _ _ _ => None)
    (fun _ _ => None)
    (fun _ _ _ _ => Some (Errorf "error tagging resource")).

(** A schedule whose tags and definitions both changed. *)
Definition retaggedSchedule : ResourceData :=
  mkResourceData "nightly" false
    (list_to_map [("arn", VString "arn:aws:redshift:::snapshotschedule:nightly");
                  ("definitions", VSet {[ "rate(12 hours)" ]})])
    (list_to_map [("arn", VString "arn:aws:redshift:::snapshotschedule:nightly");
                  ("definitions", VSet {[ "rate(6 hours)" ]});
                  ("tags_all", VMap {[ "team" := "data" ]})]).

(** A schedule of which only the definitions changed. *)
Definition rescheduled : ResourceData :=
  mkResourceData "nightly" false
    (list_to_map [("definitions", VSet {[ "rate(12 hours)" ]})])
    (list_to_map [("definitions", VSet {[ "rate(6 hours)" ]})]).

(** A Redshift service on which the describe call fails with the given
    error and every other call succeeds. *)
Definition redshiftDescribing (answer : awserr) : RedshiftConn :=
  mkRedshiftConn
    (fun _ input => Ok (Some (redshift.ScheduleIdentifier input)))
    (fun _ _ => Err answer)
    (fun _ _ => None)
    (fun _ _ => None)
    (fun _ _ _ _ => None)
    (fun _ _ => None)
    (fun _ _ _ _ => None).

(** An EC2 service on which the creation succeeds and the change of
    network services fails. *)
Definition modifyFailingEC2 : EC2Conn :=
  mkEC2Conn
    (fun _ _ => Ok (ec2.mkCreateTrafficMirrorFilterOutput
                      (ec2.mkTrafficMirrorFilter (Some "tmf-1") None ∅ [])))
    (fun _ _ => Some internalFailure)
    (fun _ _ => Ok (ec2.mkDescribeTrafficMirrorFiltersOutput []))
    (fun _ _ => None)
    (fun _ _ _ _ => None).

Definition dnsPlanned : ResourceData :=
  resourceDataOf "" true [("network_services", VSet {[ "amazon-dns" ]})].

(** Pages that each come with a next marker: from the history [w] and the
    marker [marker] the service hands out [pages] one after the other,
    which leads to the history [w'] and the marker [marker'] of the
    request to come. *)
Inductive Paging (conn : WAFRegionalConn) :
    World -> option string -> list waf.ListRulesOutput -> World -> option string -> Prop :=
| Paging_done w marker : Paging conn w marker [] w marker
| Paging_next w marker out next rest w' marker' :
    onListRules conn w (waf.mkListRulesInput marker) = Ok out ->
    waf.OutNextMarker out = Some next ->
    Paging conn (w ++ [ListRules (waf.mkListRulesInput marker)]) (Some next) rest w' marker' ->
    Paging conn w marker (out :: rest) w' marker'.

(** A listing whose second page cannot be read. *)
Definition brokenSecondPage : WAFRegionalConn :=
  mkWAFRegionalConn (fun _ input =>
    match waf.NextMarker input with
    | None =>
        Ok (waf.mkListRulesOutput [waf.mkRuleSummary (Some "bar") (Some "rule-2")]
              (Some "page-2"))
    | Some _ => Err internalFailure
    end).

(** A listing that hands out a next marker with every page. *)
Definition endlessPages : WAFRegionalConn :=
  mkWAFRegionalConn (fun _ _ =>
    Ok (waf.mkListRulesOutput [waf.mkRuleSummary (Some "bar") (Some "rule-2")] (Some "more"))).

Definition wafClient (conn : WAFRegionalConn) : AWSClient :=
  clientOf conn quietAccessAnalyzer quietRedshift quietEC2 None.

(** ** Helpers of the acceptance tests: SES receipt filter, WAFv2 web ACL association *)

Module terraform.
Record InstanceState : Type := mkInstanceState {
  ID : string;
  Attributes : gmap string string
}.
Record ResourceState : Type := mkResourceState {
  Type_ : string;
  Primary : InstanceState
}.

(** [s.RootModule().Resources], a map from resource names to resource
    states.  Go ranges over a map in an order of its own choosing: the
    list is the map in the order in which the range visits it. *)
Definition State : Type := list (string * ResourceState).

(** [s.RootModule().Resources[name]] *)
Definition Resource (s : State) (name : string) : option ResourceState :=
  (list_to_map s : gmap string ResourceState) !! name.

(** [rs.Primary.Attributes[key]]: [""] for a key that is not there. *)
Definition Attribute (rs : ResourceState) (key : string) : string :=
  default "" (Attributes (Primary rs) !! key).
End terraform.

Module ses.
Record ReceiptFilter : Type := mkReceiptFilter {
  Name : option string
}.
End ses.

Module wafv2.
Definition ErrCodeWAFNonexistentItemException : string := "WAFNonexistentItemException".

Record WebACL : Type := mkWebACL {
  ARN : option string
}.
Record GetWebACLForResourceOutput : Type := mkGetWebACLForResourceOutput {
  OutWebACL : option WebACL
}.
End wafv2.

(** The calls of the test helpers and their history. *)
Inductive TestCall : Type :=
| ListReceiptFilters
| GetWebACLForResource (resourceArn : string).

Record SESConn : Type := mkSESConn {
  onListReceiptFilters : list TestCall -> result (list ses.ReceiptFilter)
}.

Record WAFV2Conn : Type := mkWAFV2Conn {
  onGetWebACLForResource :
    list TestCall -> string -> result (option wafv2.GetWebACLForResourceOutput)
}.

(** The range over [response.Filters] that both SES helpers end at the
    first element whose name is the identifier. *)
Fixpoint receiptFilterNamed (id : string) (filters : list ses.ReceiptFilter) : bool :=
  match filters with
  | [] => false
  | element :: rest =>
      if bool_decide (StringValue (ses.Name element) = id) then true
      else receiptFilterNamed id rest
  end.

Fixpoint testAccCheckSESReceiptFilterDestroy (conn : SESConn) (s : terraform.State)
    (w : list TestCall) : option error * list TestCall :=
  match s with
  | [] => (None, w)
  | (_, rs) :: rest =>
      if bool_decide (terraform.Type_ rs ≠ "aws_ses_receipt_filter")
      then testAccCheckSESReceiptFilterDestroy conn rest w
      else
        match onListReceiptFilters conn w with
        | Err err => (Some (AwsErr err), w ++ [ListReceiptFilters])
        | Ok filters =>
            if receiptFilterNamed (terraform.ID (terraform.Primary rs)) filters
            then (Some (Errorf ("SES Receipt Filter ("
                                  +:+ terraform.ID (terraform.Primary rs)
                                  +:+ ") still exists")),
                  w ++ [ListReceiptFilters])
            else testAccCheckSESReceiptFilterDestroy conn rest (w ++ [ListReceiptFilters])
        end
  end.

Definition testAccCheckAwsSESReceiptFilterExists (conn : SESConn) (n : string)
    (s : terraform.State) (w : list TestCall) : option error * list TestCall :=
  match terraform.Resource s n with
  | None => (Some (Errorf ("SES receipt filter not found: " +:+ n)), w)
  | Some rs =>
      if bool_decide (terraform.ID (terraform.Primary rs) = "")
      then (Some (Errorf "SES receipt filter ID not set"), w)
      else
        match onListReceiptFilters conn w with
        | Err err => (Some (AwsErr err), w ++ [ListReceiptFilters])
        | Ok filters =>
            if receiptFilterNamed (terraform.ID (terraform.Primary rs)) filters
            then (None, w ++ [ListReceiptFilters])
            else (Some (Errorf "The receipt filter was not created"),
                  w ++ [ListReceiptFilters])
        end
  end.

(** Every branch of the body of the range returns once a resource of the
    association type is met. *)
Fixpoint testAccCheckAWSWafv2WebACLAssociationDestroy (conn : WAFV2Conn)
    (s : terraform.State) (w : list TestCall) : option error * list TestCall :=
  match s with
  | [] => (None, w)
  | (_, rs) :: rest =>
      if bool_decide (terraform.Type_ rs ≠ "aws_wafv2_web_acl_association")
      then testAccCheckAWSWafv2WebACLAssociationDestroy conn rest w
      else
        let resourceArn := terraform.Attribute rs "resource_arn" in
        let w' := w ++ [GetWebACLForResource resourceArn] in
        match onGetWebACLForResource conn w resourceArn with
        | Ok None | Ok (Some (wafv2.mkGetWebACLForResourceOutput None)) =>
            (Some (Errorf "Error getting WAFv2 WebACLAssociation"), w')
        | Ok (Some (wafv2.mkGetWebACLForResourceOutput (Some webACL))) =>
            let id := StringValue (wafv2.ARN webACL) +:+ "," +:+ resourceArn in
            if bool_decide (id = terraform.ID (terraform.Primary rs))
            then (Some (Errorf ("WAFv2 WebACLAssociation "
                                  +:+ terraform.ID (terraform.Primary rs)
                                  +:+ " still exists")),
                  w')
            else (None, w')
        | Err err =>
            (* Return nil if the Web ACL Association is already destroyed *)
            if ErrMessageContains (Some (AwsErr err))
                 wafv2.ErrCodeWAFNonexistentItemException ""
            then (None, w')
            else (Some (AwsErr err), w')
        end
  end.

Definition testAccCheckAWSWafv2WebACLAssociationExists (name : string) (s : terraform.State)
    : option error :=
  match terraform.Resource s name with
  | None => Some (Errorf ("Not found: " +:+ name))
  | Some _ => None
  end.

Definition testAccAWSWafv2WebACLAssociationImportStateIdFunc (resourceName : string)
    (s : terraform.State) : string * option error :=
  match terraform.Resource s resourceName with
  | None => ("", Some (Errorf ("Not found: " +:+ resourceName)))
  | Some rs =>
      (terraform.Attribute rs "web_acl_arn" +:+ "," +:+ terraform.Attribute rs "resource_arn",
       None)
  end.

(** The resources of a state that a destroy check looks at. *)
Definition ofType (type : string) (s : terraform.State) : terraform.State :=
  filter (fun entry => terraform.Type_ entry.2 = type) s.

(** A state with one receipt filter among resources of other types. *)
Definition blockFilter : terraform.ResourceState :=
  terraform.mkResourceState "aws_ses_receipt_filter"
    (terraform.mkInstanceState "block-spam" {[ "cidr" := "10.10.10.10" ]}).

Definition someBucket : terraform.ResourceState :=
  terraform.mkResourceState "aws_s3_bucket" (terraform.mkInstanceState "logs" ∅).

Definition filterState : terraform.State :=
  [("aws_s3_bucket.logs", someBucket); ("aws_ses_receipt_filter.test", blockFilter)].

Definition sesListing (names : list string) : SESConn :=
  mkSESConn (fun _ => Ok (map (fun name => ses.mkReceiptFilter (Some name)) names)).

(** Two associations in one state; the service still knows the web ACL of
    the second one only. *)
Definition association (webACL resource : string) : terraform.ResourceState :=
  terraform.mkResourceState "aws_wafv2_web_acl_association"
    (terraform.mkInstanceState (webACL +:+ "," +:+ resource)
       {[ "web_acl_arn" := webACL; "resource_arn" := resource ]}).

Definition associationState : terraform.State :=
  [("aws_s3_bucket.logs", someBucket);
   ("aws_wafv2_web_acl_association.first", association "acl-1" "stage-1");
   ("aws_wafv2_web_acl_association.second", association "acl-2" "stage-2")].

Definition wafv2Knowing (resource webACL : string) : WAFV2Conn :=
  mkWAFV2Conn (fun _ resourceArn =>
    if bool_decide (resourceArn = resource)
    then Ok (Some (wafv2.mkGetWebACLForResourceOutput (Some (wafv2.mkWebACL (Some webACL)))))
    else Err (mkAwsErr wafv2.ErrCodeWAFNonexistentItemException "no association")).

(** * Properties *)

(** ** Strings *)

Lemma HasPrefix_app (p s : string) : HasPrefix (p +:+ s) p = true.
Proof.
  induction p as [|c p IH]; simpl.
  - by destruct s.
  - by rewrite bool_decide_eq_true_2, IH.
Qed.

Lemma Contains_unfold (s sub : string) :
  Contains s sub
  = HasPrefix s sub || match s with EmptyString => false | String _ s' => Contains s' sub end.
Proof. by destruct s. Qed.

Lemma Contains_app (a sub b : string) : Contains (a +:+ sub +:+ b) sub = true.
Proof.
  induction a as [|c a IH].
  - change ("" +:+ sub +:+ b) with (sub +:+ b).
    by rewrite Contains_unfold, HasPrefix_app.
  - simpl. rewrite IH. apply orb_true_r.
Qed.

Lemma Contains_prefix (sub b : string) : Contains (sub +:+ b) sub = true.
Proof. apply (Contains_app "" sub b). Qed.

Lemma Contains_empty (s : string) : Contains s "" = true.
Proof. by destruct s. Qed.

(** ** WAF regional rule data source *)

Lemma listRulesLoop_listing (conn : WAFRegionalConn) (name : string)
    (pages : list waf.ListRulesOutput) (w : World) (marker : option string) :
  Listing conn w marker pages ->
  forall (fuel : nat) (rules : list waf.RuleSummary),
    (length pages <= fuel)%nat ->
    listRulesLoop conn fuel name (waf.mkListRulesInput marker) rules w
    = (Some (None, rules ++ matching name pages), w ++ walk marker pages).
Proof.
  induction 1 as [w marker out Hok Hlast | w marker out next rest Hok Hnext _ IH];
    intros [|fuel] rules Hfuel; simpl in Hfuel; try lia;
    cbn [listRulesLoop]; unfold mbind, M_bind, invoke; rewrite Hok.
  - rewrite Hlast. unfold matching. simpl. by rewrite app_nil_r.
  - rewrite Hnext, IH by lia. unfold matching; simpl.
    rewrite filter_app, <- !app_assoc. simpl. by rewrite Hnext.
Qed.

(** C1.  The WAF regional rule lookup by name.  When the service hands out
    its rules in a finite run of pages (the last one without a next
    marker), the read requests exactly these pages, one after the other,
    each request carrying the marker of the page before, and returns.
    With [found] the rules of all the pages whose name equals the filter:
    no rule found gives an error whose message says "not found", two or
    more give an error whose message says "multiple ... found" and the
    identifier is left alone, exactly one sets the identifier to the
    [RuleId] of that rule and gives no error. *)
Theorem waf_rule_lookup_by_name (meta : AWSClient) (d : ResourceData)
    (pages : list waf.ListRulesOutput) (fuel : nat) (w : World) :
  Listing (WAFRegional meta) w None pages ->
  (length pages <= fuel)%nat ->
  let name := asString (Get d "name") in
  let found := matching name pages in
  let run := dataSourceAwsWafRegionalRuleRead fuel d meta w in
  run.2 = w ++ walk None pages
  ∧ (found = [] ->
     run.1 = Some (Some (Errorf ("WAF Rule not found for name: " +:+ name)), d)
     ∧ Contains ("WAF Rule not found for name: " +:+ name) "not found" = true)
  ∧ ((2 <= length found)%nat ->
     run.1 = Some (Some (Errorf ("multiple WAF Rules found for name: " +:+ name)), d)
     ∧ Contains ("multiple WAF Rules found for name: " +:+ name) "multiple" = true
     ∧ Contains ("multiple WAF Rules found for name: " +:+ name) "found" = true)
  ∧ (forall rule, found = [rule] ->
     run.1 = Some (None, SetId (StringValue (waf.RuleId rule)) d)).
Proof.
  intros Hpages Hfuel name found run.
  pose proof (listRulesLoop_listing _ name _ _ _ Hpages fuel [] Hfuel) as Hloop.
  simpl in Hloop. fold found in Hloop.
  assert (run = (match found with
                 | [] => Some (Some (Errorf ("WAF Rule not found for name: " +:+ name)), d)
                 | [rule] => Some (None, SetId (StringValue (waf.RuleId rule)) d)
                 | _ :: _ :: _ =>
                     Some (Some (Errorf ("multiple WAF Rules found for name: " +:+ name)), d)
                 end, w ++ walk None pages)) as ->.
  { unfold run, dataSourceAwsWafRegionalRuleRead, mbind, M_bind.
    fold name. rewrite Hloop. by destruct found as [|? [|? ?]]. }
  split; [done|]. split; [|split].
  - intros ->. split; [done|]. exact (Contains_app "WAF Rule " "not found" (" for name: " +:+ name)).
  - intros Hlen. destruct found as [|? [|? ?]]; simpl in Hlen; try lia.
    split; [done|]. split.
    + exact (Contains_prefix "multiple" (" WAF Rules found for name: " +:+ name)).
    + exact (Contains_app "multiple WAF Rules " "found" (" for name: " +:+ name)).
  - by intros rule ->.
Qed.

Lemma waf_rule_lookup_by_name_witness :
  let d := resourceDataOf "" false [("name", VString "bar")] in
  (dataSourceAwsWafRegionalRuleRead 5 d twoPagesClient []).1 = Some (None, SetId "rule-2" d).
Proof.
  intros d.
  assert (Listing twoPages [] None
            [waf.mkListRulesOutput
               [waf.mkRuleSummary (Some "foo") (Some "rule-1");
                waf.mkRuleSummary (Some "bar") (Some "rule-2")] (Some "page-2");
             waf.mkListRulesOutput
               [waf.mkRuleSummary (Some "foo") (Some "rule-3");
                waf.mkRuleSummary None (Some "rule-4")] None]) as Hpages.
  { eapply Listing_more; [reflexivity|reflexivity|].
    eapply Listing_last; reflexivity. }
  destruct (waf_rule_lookup_by_name twoPagesClient d _ 5 [] Hpages) as (_ & _ & _ & Hone);
    [simpl; lia|].
  apply (Hone (waf.mkRuleSummary (Some "bar") (Some "rule-2"))).
  vm_compute. reflexivity.
Defined.

(** The example of the spec: two rules are named [foo], so the lookup of
    [foo] fails and the identifier stays as it was. *)
Example waf_rule_lookup_foo_is_ambiguous :
  let d := resourceDataOf "" false [("name", VString "foo")] in
  (dataSourceAwsWafRegionalRuleRead 5 d twoPagesClient []).1
  = Some (Some (Errorf "multiple WAF Rules found for name: foo"), d).
Proof. vm_compute. reflexivity. Qed.

(** ** Not found on Delete *)

Ltac run_callback :=
  unfold mbind, M_bind, mret, M_ret, invoke, history; simpl.

(** The Access Analyzer Delete takes the not-found code of the service
    for success. *)
Lemma analyzer_delete_not_found_is_success (ext : Externals) (d : ResourceData)
    (meta : AWSClient) (w : World) (msg : string) :
  let input := accessanalyzer.mkDeleteAnalyzerInput (Id d) (UniqueId ext w) in
  onDeleteAnalyzer (AccessAnalyzer meta) w input
    = Some (mkAwsErr accessanalyzer.ErrCodeResourceNotFoundException msg) ->
  resourceAwsAccessAnalyzerAnalyzerDelete ext d meta w = (None, d, w ++ [DeleteAnalyzer input]).
Proof.
  intros input Hgone. unfold resourceAwsAccessAnalyzerAnalyzerDelete. run_callback.
  fold input. rewrite Hgone. simpl. by rewrite Contains_empty.
Qed.

(** So does the Redshift snapshot schedule Delete, here without the
    clean-up of associations. *)
Lemma snapshot_schedule_delete_not_found_is_success (d : ResourceData) (meta : AWSClient)
    (w : World) (msg : string) :
  asBool (Get d "force_destroy") = false ->
  onDeleteSnapshotSchedule (Redshift meta) w (Id d)
    = Some (mkAwsErr redshift.ErrCodeSnapshotScheduleNotFoundFault msg) ->
  resourceAwsRedshiftSnapshotScheduleDelete d meta w
  = (None, d, w ++ [DeleteSnapshotSchedule (Id d)]).
Proof.
  intros Hforce Hgone. unfold resourceAwsRedshiftSnapshotScheduleDelete. run_callback.
  rewrite Hforce. simpl. rewrite Hgone. simpl. by rewrite Contains_empty.
Qed.

(** C2.  The EC2 traffic mirror filter Delete has no case for the object
    being gone already: when the service answers the delete call with its
    not-found code, Delete returns an error that wraps the answer. *)
Theorem traffic_mirror_filter_delete_not_found_is_error (d : ResourceData) (meta : AWSClient)
    (w : World) (msg : string) :
  onDeleteTrafficMirrorFilter (EC2 meta) w (Id d)
    = Some (mkAwsErr ec2.ErrCodeInvalidTrafficMirrorFilterIdNotFound msg) ->
  resourceAwsEc2TrafficMirrorFilterDelete d meta w
  = (Some (Errorf ("Error deleting traffic mirror filter " +:+ Id d +:+ ": "
                     +:+ "InvalidTrafficMirrorFilterId.NotFound: " +:+ msg)),
     d, w ++ [DeleteTrafficMirrorFilter (Id d)]).
Proof.
  intros Hgone. unfold resourceAwsEc2TrafficMirrorFilterDelete. run_callback.
  by rewrite Hgone.
Qed.

Lemma traffic_mirror_filter_delete_not_found_is_error_witness :
  let d := resourceDataOf "tmf-1" false [] in
  resourceAwsEc2TrafficMirrorFilterDelete d goneClient []
  = (Some (Errorf "Error deleting traffic mirror filter tmf-1: InvalidTrafficMirrorFilterId.NotFound: no such filter"),
     d, [DeleteTrafficMirrorFilter "tmf-1"]).
Proof.
  intros d.
  apply (traffic_mirror_filter_delete_not_found_is_error d goneClient [] "no such filter").
  reflexivity.
Defined.

(** ** Not found on Read *)

(** The Access Analyzer Read: not found clears the identifier of a
    resource that is not new, and is an error for a new one. *)
Lemma analyzer_read_not_found (ext : Externals) (d : ResourceData) (meta : AWSClient)
    (w : World) (msg : string) :
  onGetAnalyzer (AccessAnalyzer meta) w (Id d)
    = Err (mkAwsErr accessanalyzer.ErrCodeResourceNotFoundException msg) ->
  resourceAwsAccessAnalyzerAnalyzerRead ext d meta w
  = (if IsNewResource d
     then (Some (Errorf ("error getting Access Analyzer Analyzer (" +:+ Id d +:+ "): "
                           +:+ "ResourceNotFoundException: " +:+ msg)), d)
     else (None, SetId "" d),
     w ++ [GetAnalyzer (Id d)]).
Proof.
  intros Hgone. unfold resourceAwsAccessAnalyzerAnalyzerRead. run_callback.
  rewrite Hgone. simpl. by destruct (IsNewResource d).
Qed.

(** The EC2 traffic mirror filter Read of a resource that is not new. *)
Lemma traffic_mirror_filter_read_not_found (ext : Externals) (d : ResourceData)
    (meta : AWSClient) (w : World) (msg : string) :
  onDescribeTrafficMirrorFilters (EC2 meta) w [Id d]
    = Err (mkAwsErr ec2.ErrCodeInvalidTrafficMirrorFilterIdNotFound msg) ->
  resourceAwsEc2TrafficMirrorFilterRead ext d meta w
  = (None, SetId "" d, w ++ [DescribeTrafficMirrorFilters [Id d]]).
Proof.
  intros Hgone. unfold resourceAwsEc2TrafficMirrorFilterRead. run_callback.
  rewrite Hgone. simpl. by rewrite Contains_empty.
Qed.

(** C3.  The EC2 traffic mirror filter Read does not look at the
    new-resource mark: the first Read after Create, answered with the
    not-found code, clears the identifier and reports success. *)
Theorem traffic_mirror_filter_read_not_found_when_new (ext : Externals) (d : ResourceData)
    (meta : AWSClient) (w : World) (msg : string) :
  IsNewResource d = true ->
  onDescribeTrafficMirrorFilters (EC2 meta) w [Id d]
    = Err (mkAwsErr ec2.ErrCodeInvalidTrafficMirrorFilterIdNotFound msg) ->
  (resourceAwsEc2TrafficMirrorFilterRead ext d meta w).1 = (None, SetId "" d).
Proof.
  intros _ Hgone. by rewrite (traffic_mirror_filter_read_not_found ext d meta w msg Hgone).
Qed.

Lemma traffic_mirror_filter_read_not_found_when_new_witness :
  let d := resourceDataOf "tmf-1" true [] in
  (resourceAwsEc2TrafficMirrorFilterRead someExternals d goneClient []).1 = (None, SetId "" d).
Proof.
  intros d.
  apply (traffic_mirror_filter_read_not_found_when_new someExternals d goneClient []
           "no such filter"); reflexivity.
Defined.

(** ** Access Analyzer Create: the retry loop *)

Section AnalyzerCreate.
Variable ext : Externals.
Variable conn : AccessAnalyzerConn.
Variable input : accessanalyzer.CreateAnalyzerInput.

Lemma createAnalyzerAttempt_run (w : World) :
  createAnalyzerAttempt conn input w
  = (let err := createAnswer conn input w 0 in
     if organizationNotReady err then RetryableError err else NonRetryableError err,
     w ++ [CreateAnalyzer input]).
Proof.
  unfold createAnalyzerAttempt, createAnswer, organizationNotReady. run_callback.
  rewrite app_nil_r.
  destruct (ErrMessageContains _ _ _); [done|].
  by destruct (sdk _).
Qed.

Lemma createAnswer_shift (w : World) (i : nat) :
  createAnswer conn input (w ++ [CreateAnalyzer input]) i = createAnswer conn input w (S i).
Proof. unfold createAnswer. simpl. by rewrite <- app_assoc. Qed.

Lemma organizationNotReady_retryable (err : option error) :
  organizationNotReady err = true ->
  exists e, RetryableError err = Some (mkRetryError e true).
Proof. destruct err as [e|]; [by exists e | done]. Qed.

(** The attempts answered by the retried error are all made. *)
Lemma retryLoop_retried (k : nat) : forall (attempts : nat) (w : World),
  (k <= attempts)%nat ->
  (forall i, (i < k)%nat -> organizationNotReady (createAnswer conn input w i) = true) ->
  retryLoop attempts (createAnalyzerAttempt conn input) w
  = retryLoop (attempts - k) (createAnalyzerAttempt conn input)
      (w ++ replicate k (CreateAnalyzer input)).
Proof.
  induction k as [|k IH]; intros attempts w Hk Hretry.
  - simpl. by rewrite Nat.sub_0_r, app_nil_r.
  - destruct attempts as [|attempts]; [lia|].
    cbn [retryLoop]. unfold mbind, M_bind. rewrite createAnalyzerAttempt_run.
    cbv zeta. rewrite (Hretry 0%nat) by lia.
    destruct (organizationNotReady_retryable _ (Hretry 0%nat ltac:(lia))) as [e ->].
    cbn [Retryable]. rewrite IH; [| lia |].
    + simpl. by rewrite <- app_assoc.
    + intros i Hi. rewrite createAnswer_shift. apply Hretry. lia.
Qed.

(** The first answer that is not the retried error ends the loop. *)
Lemma retryLoop_settles (k attempts : nat) (w : World) :
  (k < attempts)%nat ->
  (forall i, (i < k)%nat -> organizationNotReady (createAnswer conn input w i) = true) ->
  organizationNotReady (createAnswer conn input w k) = false ->
  retryLoop attempts (createAnalyzerAttempt conn input) w
  = (createAnswer conn input w k, w ++ replicate (S k) (CreateAnalyzer input)).
Proof.
  intros Hk Hretry Hsettle.
  rewrite (retryLoop_retried k) by (done || lia).
  destruct (attempts - k)%nat as [|rest] eqn:E; [lia|].
  cbn [retryLoop]. unfold mbind, M_bind. rewrite createAnalyzerAttempt_run.
  cbv zeta. unfold createAnswer at 1 2 3. rewrite app_nil_r. fold (createAnswer conn input w k).
  rewrite Hsettle.
  replace (w ++ replicate (S k) (CreateAnalyzer input))
    with ((w ++ replicate k (CreateAnalyzer input)) ++ [CreateAnalyzer input]).
  - by destruct (createAnswer conn input w k).
  - rewrite <- app_assoc. f_equal.
    change [CreateAnalyzer input] with (replicate 1 (CreateAnalyzer input)).
    rewrite <- replicate_add. f_equal. lia.
Qed.

(** When every attempt is answered by the retried error, the loop ends
    with the time-out error. *)
Lemma retryLoop_exhausted (attempts : nat) (w : World) :
  (forall i, (i < attempts)%nat -> organizationNotReady (createAnswer conn input w i) = true) ->
  retryLoop attempts (createAnalyzerAttempt conn input) w
  = (Some TimeoutError, w ++ replicate attempts (CreateAnalyzer input)).
Proof.
  intros Hretry. rewrite (retryLoop_retried attempts) by (done || lia).
  by rewrite Nat.sub_diag.
Qed.

Lemma createAnswer_not_TimedOut (w : World) (i : nat) :
  TimedOut (createAnswer conn input w i) = false.
Proof. unfold createAnswer. by destruct (onCreateAnalyzer _ _ _). Qed.
End AnalyzerCreate.

(** Create once the retry loop has settled on an answer that is not the
    retried error. *)
Lemma analyzer_create_settled (ext : Externals) (d : ResourceData) (meta : AWSClient)
    (w : World) (k : nat) :
  let conn := AccessAnalyzer meta in
  let input := createAnalyzerInput ext d meta w in
  (k < attemptsWithin ext accessAnalyzerOrganizationCreationTimeout)%nat ->
  (forall i, (i < k)%nat -> organizationNotReady (createAnswer conn input w i) = true) ->
  organizationNotReady (createAnswer conn input w k) = false ->
  resourceAwsAccessAnalyzerAnalyzerCreate ext d meta w
  = afterCreateAnalyzer ext d meta (createAnswer conn input w k)
      (w ++ replicate (S k) (CreateAnalyzer input)).
Proof.
  intros conn input Hk Hretry Hsettle.
  unfold resourceAwsAccessAnalyzerAnalyzerCreate, Retry, mbind, M_bind, history.
  fold conn input.
  rewrite (retryLoop_settles conn input k _ w Hk Hretry Hsettle).
  rewrite createAnswer_not_TimedOut. reflexivity.
Qed.

(** Create once the retry loop has given up. *)
Lemma analyzer_create_timed_out (ext : Externals) (d : ResourceData) (meta : AWSClient)
    (w : World) :
  let conn := AccessAnalyzer meta in
  let input := createAnalyzerInput ext d meta w in
  let attempts := attemptsWithin ext accessAnalyzerOrganizationCreationTimeout in
  (forall i, (i < attempts)%nat -> organizationNotReady (createAnswer conn input w i) = true) ->
  resourceAwsAccessAnalyzerAnalyzerCreate ext d meta w
  = afterCreateAnalyzer ext d meta (createAnswer conn input w attempts)
      (w ++ replicate (S attempts) (CreateAnalyzer input)).
Proof.
  intros conn input attempts Hretry.
  unfold resourceAwsAccessAnalyzerAnalyzerCreate, Retry, mbind, M_bind, history.
  fold conn input attempts.
  rewrite (retryLoop_exhausted conn input attempts w Hretry).
  cbn [TimedOut]. unfold invoke. fold (createAnswer conn input w attempts).
  by rewrite replicate_S_end, app_assoc.
Qed.

(** C4.  The creation call is tried again only on the validation error
    whose message has "You must create an organization", and for no
    longer than the 10 minutes handed to the retry primitive: when the
    first [k] calls get that error and call [k] gets any other answer
    before the ceiling, no further creation call is made; another error is
    returned to the caller at once, wrapped with the analyzer name, and
    success goes on to Read. *)
Theorem analyzer_create_retries_organization_error_only (ext : Externals)
    (d : ResourceData) (meta : AWSClient) (w : World) (k : nat) :
  let conn := AccessAnalyzer meta in
  let input := createAnalyzerInput ext d meta w in
  (k < attemptsWithin ext (10 * Minute)%Z)%nat ->
  (forall i, (i < k)%nat -> organizationNotReady (createAnswer conn input w i) = true) ->
  organizationNotReady (createAnswer conn input w k) = false ->
  accessAnalyzerOrganizationCreationTimeout = 600 * Second
  ∧ resourceAwsAccessAnalyzerAnalyzerCreate ext d meta w
    = afterCreateAnalyzer ext d meta (createAnswer conn input w k)
        (w ++ replicate (S k) (CreateAnalyzer input))
  ∧ forall e, createAnswer conn input w k = Some e ->
      resourceAwsAccessAnalyzerAnalyzerCreate ext d meta w
      = (Some (Errorf ("error creating Access Analyzer Analyzer ("
                         +:+ asString (Get d "analyzer_name") +:+ "): " +:+ ErrorString e)),
         d, w ++ replicate (S k) (CreateAnalyzer input)).
Proof.
  intros conn input Hk Hretry Hsettle.
  pose proof (analyzer_create_settled ext d meta w k Hk Hretry Hsettle) as Hrun.
  split; [reflexivity|]. split; [exact Hrun|].
  intros e He. rewrite Hrun. fold conn input. rewrite He. reflexivity.
Qed.

Lemma analyzer_create_retries_organization_error_only_witness :
  resourceAwsAccessAnalyzerAnalyzerCreate someExternals organizationAnalyzer
    (pendingClient 2 (Some (mkAwsErr "AccessDeniedException" "not allowed"))) []
  = (Some (Errorf
       "error creating Access Analyzer Analyzer (org): AccessDeniedException: not allowed"),
     organizationAnalyzer,
     replicate 3 (CreateAnalyzer
                    (createAnalyzerInput someExternals organizationAnalyzer
                       (pendingClient 2 None) []))).
Proof.
  destruct (analyzer_create_retries_organization_error_only someExternals
              organizationAnalyzer
              (pendingClient 2 (Some (mkAwsErr "AccessDeniedException" "not allowed")))
              [] 2) as (_ & _ & Herr).
  - vm_compute. lia.
  - intros [|[|i]] Hi; [reflexivity | reflexivity | lia].
  - reflexivity.
  - apply (Herr (AwsErr (mkAwsErr "AccessDeniedException" "not allowed"))). reflexivity.
Defined.



(** ** Redshift snapshot schedule: Read and the clean-up of associations *)

(** C9.  Whenever the describe call returns a list of schedules whose
    length is not one, Read clears the identifier and returns no error,
    whatever the new-resource mark and however many schedules came back;
    the clean-up helper returns no error either, having made no call but
    the describe call. *)
Theorem snapshot_schedule_not_single (ext : Externals) (d : ResourceData) (meta : AWSClient)
    (w : World) (resp : redshift.DescribeSnapshotSchedulesOutput) :
  onDescribeSnapshotSchedules (Redshift meta) w (Id d) = Ok resp ->
  length (redshift.SnapshotSchedules resp) ≠ 1%nat ->
  resourceAwsRedshiftSnapshotScheduleRead ext d meta w
  = (None, SetId "" d, w ++ [DescribeSnapshotSchedules (Id d)])
  ∧ resourceAwsRedshiftSnapshotScheduleDeleteAllAssociatedClusters (Redshift meta) (Id d) w
    = (None, w ++ [DescribeSnapshotSchedules (Id d)]).
Proof.
  intros Hresp Hlen.
  unfold resourceAwsRedshiftSnapshotScheduleRead,
    resourceAwsRedshiftSnapshotScheduleDeleteAllAssociatedClusters.
  run_callback. rewrite Hresp. simpl.
  by destruct (redshift.SnapshotSchedules resp) as [|? [|? ?]].
Qed.

Lemma snapshot_schedule_not_single_witness :
  let meta := redshiftWith [nightly []; nightly ["c1"]] lostCluster in
  resourceAwsRedshiftSnapshotScheduleRead someExternals (nightlyForced true)
    (redshiftClient meta) []
  = (None, SetId "" (nightlyForced true), [DescribeSnapshotSchedules "nightly"])
  ∧ resourceAwsRedshiftSnapshotScheduleDeleteAllAssociatedClusters meta "nightly" []
    = (None, [DescribeSnapshotSchedules "nightly"]).
Proof.
  intros meta.
  apply (snapshot_schedule_not_single someExternals (nightlyForced true)
           (redshiftClient meta) []
           (redshift.mkDescribeSnapshotSchedulesOutput [nightly []; nightly ["c1"]])).
  - reflexivity.
  - simpl. lia.
Defined.

Section CleanUp.
Variable conn : RedshiftConn.
Variable scheduleIdentifier : string.

Local Abbreviation answerAt := (disassociateAnswer conn scheduleIdentifier).
Local Abbreviation waitAt := (waitAnswer conn scheduleIdentifier).

Local Arguments ErrMessageContains : simpl never.

Lemma disassociateAnswer_shift (c : redshift.ClusterAssociatedToSchedule)
    (rest : list redshift.ClusterAssociatedToSchedule) (w : World) (i : nat) :
  answerAt (c :: rest) w (S i) = answerAt rest (w ++ [disassociateCall scheduleIdentifier c]) i.
Proof. unfold disassociateAnswer. simpl. by rewrite <- app_assoc. Qed.

Lemma waitAnswer_shift (c : redshift.ClusterAssociatedToSchedule)
    (rest : list redshift.ClusterAssociatedToSchedule) (w : World) (i : nat) :
  waitAt (c :: rest) w (S i) = waitAt rest (w ++ [waitCall scheduleIdentifier c]) i.
Proof. unfold waitAnswer. simpl. by rewrite <- app_assoc. Qed.

(** One round of the first loop, by the answer to its call. *)
Lemma disassociateLoop_cons (c : redshift.ClusterAssociatedToSchedule)
    (rest : list redshift.ClusterAssociatedToSchedule) (w : World) :
  disassociateLoop conn scheduleIdentifier (c :: rest) w
  = match answerAt (c :: rest) w 0 with
    | Some e =>
        if skipped (Some e)
        then disassociateLoop conn scheduleIdentifier rest
               (w ++ [disassociateCall scheduleIdentifier c])
        else (Some (Errorf
                ("Error disassociate Redshift Cluster ("
                   +:+ StringValue (redshift.ClusterIdentifier c)
                   +:+ ") and Snapshot Schedule (" +:+ scheduleIdentifier
                   +:+ ") Association: " +:+ ErrorString e)),
              w ++ [disassociateCall scheduleIdentifier c])
    | None =>
        disassociateLoop conn scheduleIdentifier rest
          (w ++ [disassociateCall scheduleIdentifier c])
    end.
Proof.
  cbn [disassociateLoop]. unfold mbind, M_bind, invoke, disassociateAnswer, skipped.
  simpl. rewrite app_nil_r. fold (disassociateInput scheduleIdentifier c).
  destruct (sdk _) as [e|]; [|done].
  destruct (ErrMessageContains (Some e) redshift.ErrCodeClusterNotFoundFault ""); [done|].
  by destruct (ErrMessageContains (Some e) redshift.ErrCodeSnapshotScheduleNotFoundFault "").
Qed.

Lemma waitLoop_cons (c : redshift.ClusterAssociatedToSchedule)
    (rest : list redshift.ClusterAssociatedToSchedule) (w : World) :
  waitLoop conn scheduleIdentifier (c :: rest) w
  = match waitAt (c :: rest) w 0 with
    | Some e => (Some e, w ++ [waitCall scheduleIdentifier c])
    | None => waitLoop conn scheduleIdentifier rest (w ++ [waitCall scheduleIdentifier c])
    end.
Proof.
  cbn [waitLoop]. unfold mbind, M_bind, waitForRedshiftSnapshotScheduleAssociationDestroy,
    invoke, waitAnswer.
  simpl. rewrite app_nil_r. by destruct (onWaitAssociationDestroy _ _ _ _ _).
Qed.

(** A loop that ends without an error has gone through every cluster. *)
Lemma disassociateLoop_done (clusters : list redshift.ClusterAssociatedToSchedule) :
  forall w : World,
    (disassociateLoop conn scheduleIdentifier clusters w).1 = None ->
    (disassociateLoop conn scheduleIdentifier clusters w).2
    = w ++ map (disassociateCall scheduleIdentifier) clusters.
Proof.
  induction clusters as [|c rest IH]; intros w.
  - simpl. by rewrite app_nil_r.
  - rewrite disassociateLoop_cons.
    destruct (answerAt (c :: rest) w 0) as [e|]; [destruct (skipped (Some e))|];
      intros Hnone; try done;
      rewrite (IH _ Hnone); simpl; by rewrite <- app_assoc.
Qed.

Lemma waitLoop_done (clusters : list redshift.ClusterAssociatedToSchedule) :
  forall w : World,
    (waitLoop conn scheduleIdentifier clusters w).1 = None ->
    (waitLoop conn scheduleIdentifier clusters w).2
    = w ++ map (waitCall scheduleIdentifier) clusters.
Proof.
  induction clusters as [|c rest IH]; intros w.
  - simpl. by rewrite app_nil_r.
  - rewrite waitLoop_cons.
    destruct (waitAt (c :: rest) w 0) as [e|]; intros Hnone; try done.
    rewrite (IH _ Hnone); simpl; by rewrite <- app_assoc.
Qed.

(** A loop in which every call passes goes through every cluster. *)
Lemma disassociateLoop_passes (clusters : list redshift.ClusterAssociatedToSchedule) :
  forall w : World,
    (forall i, passes (answerAt clusters w i) = true) ->
    disassociateLoop conn scheduleIdentifier clusters w
    = (None, w ++ map (disassociateCall scheduleIdentifier) clusters).
Proof.
  induction clusters as [|c rest IH]; intros w Hpass.
  - simpl. by rewrite app_nil_r.
  - rewrite disassociateLoop_cons. pose proof (Hpass 0%nat) as H0.
    assert (disassociateLoop conn scheduleIdentifier rest
              (w ++ [disassociateCall scheduleIdentifier c])
            = (None, w ++ map (disassociateCall scheduleIdentifier) (c :: rest))) as Hrest.
    { rewrite IH; [simpl; by rewrite <- app_assoc|].
      intros i. rewrite <- disassociateAnswer_shift. apply Hpass. }
    destruct (answerAt (c :: rest) w 0) as [e|]; [|done].
    simpl in H0. by rewrite H0.
Qed.

(** The first call that fails for another reason than the two skipped
    ones ends the loop with an error that carries the answer. *)
Lemma disassociateLoop_fails (clusters : list redshift.ClusterAssociatedToSchedule) :
  forall (w : World) (i : nat) (c : redshift.ClusterAssociatedToSchedule) (e : error),
    clusters !! i = Some c ->
    (forall j, (j < i)%nat -> passes (answerAt clusters w j) = true) ->
    answerAt clusters w i = Some e ->
    skipped (Some e) = false ->
    disassociateLoop conn scheduleIdentifier clusters w
    = (Some (Errorf
         ("Error disassociate Redshift Cluster ("
            +:+ StringValue (redshift.ClusterIdentifier c)
            +:+ ") and Snapshot Schedule (" +:+ scheduleIdentifier
            +:+ ") Association: " +:+ ErrorString e)),
       w ++ map (disassociateCall scheduleIdentifier) (take (S i) clusters)).
Proof.
  induction clusters as [|c0 rest IH]; intros w i c e Hc Hpass Hfail Hhard; [done|].
  rewrite disassociateLoop_cons. destruct i as [|i].
  - simpl in Hc. injection Hc as ->. by rewrite Hfail, Hhard.
  - simpl in Hc. pose proof (Hpass 0%nat ltac:(lia)) as H0.
    assert (disassociateLoop conn scheduleIdentifier rest
              (w ++ [disassociateCall scheduleIdentifier c0])
            = (Some (Errorf
                 ("Error disassociate Redshift Cluster ("
                    +:+ StringValue (redshift.ClusterIdentifier c)
                    +:+ ") and Snapshot Schedule (" +:+ scheduleIdentifier
                    +:+ ") Association: " +:+ ErrorString e)),
               w ++ map (disassociateCall scheduleIdentifier) (take (S (S i)) (c0 :: rest))))
      as Hrest.
    { rewrite (IH _ i c e Hc); [simpl; by rewrite <- app_assoc | |
                                 by rewrite <- disassociateAnswer_shift | done].
      intros j Hj. rewrite <- disassociateAnswer_shift. apply Hpass. lia. }
    destruct (answerAt (c0 :: rest) w 0) as [e0|]; [|done].
    simpl in H0. by rewrite H0.
Qed.

(** The first wait that fails ends the second loop with its error. *)
Lemma waitLoop_fails (clusters : list redshift.ClusterAssociatedToSchedule) :
  forall (w : World) (i : nat) (e : error),
    (forall j, (j < i)%nat -> waitAt clusters w j = None) ->
    waitAt clusters w i = Some e ->
    waitLoop conn scheduleIdentifier clusters w
    = (Some e, w ++ map (waitCall scheduleIdentifier) (take (S i) clusters)).
Proof.
  induction clusters as [|c0 rest IH]; intros w i e Hpass Hfail.
  - unfold waitAnswer in Hfail. by rewrite lookup_nil in Hfail.
  - rewrite waitLoop_cons. destruct i as [|i].
    + by rewrite Hfail.
    + rewrite (Hpass 0%nat) by lia.
      rewrite (IH _ i e); [simpl; by rewrite <- app_assoc | | by rewrite <- waitAnswer_shift].
      intros j Hj. rewrite <- waitAnswer_shift. apply Hpass. lia.
Qed.
End CleanUp.

(** Delete with the force-destroy flag, once the schedule is described:
    the first loop, then the second loop, then the delete call. *)
Lemma snapshot_schedule_delete_forced (d : ResourceData) (meta : AWSClient) (w : World)
    (snapshotSchedule : redshift.SnapshotSchedule) :
  let conn := Redshift meta in
  let clusters := redshift.AssociatedClusters snapshotSchedule in
  asBool (Get d "force_destroy") = true ->
  onDescribeSnapshotSchedules conn w (Id d)
    = Ok (redshift.mkDescribeSnapshotSchedulesOutput [snapshotSchedule]) ->
  resourceAwsRedshiftSnapshotScheduleDelete d meta w
  = let '(err, w2) :=
      disassociateLoop conn (Id d) clusters (w ++ [DescribeSnapshotSchedules (Id d)]) in
    match err with
    | Some e => (Some e, d, w2)
    | None =>
        let '(err, w3) := waitLoop conn (Id d) clusters w2 in
        match err with
        | Some e => (Some e, d, w3)
        | None =>
            let err := sdk (onDeleteSnapshotSchedule conn w3 (Id d)) in
            (if ErrMessageContains err redshift.ErrCodeSnapshotScheduleNotFoundFault ""
             then None
             else match err with
                  | Some e =>
                      Some (Errorf ("Error deleting Redshift Snapshot Schedule " +:+ Id d
                                      +:+ ": " +:+ ErrorString e))
                  | None => None
                  end,
             d, w3 ++ [DeleteSnapshotSchedule (Id d)])
        end
    end.
Proof.
  intros conn clusters Hforce Hdescribe.
  unfold resourceAwsRedshiftSnapshotScheduleDelete,
    resourceAwsRedshiftSnapshotScheduleDeleteAllAssociatedClusters.
  unfold mbind, M_bind, mret, M_ret. rewrite Hforce. unfold invoke at 1.
  fold conn. rewrite Hdescribe. cbn [errOf redshift.SnapshotSchedules]. fold clusters.
  change (ErrMessageContains None redshift.ErrCodeSnapshotScheduleNotFoundFault "")
    with false. cbv iota.
  cbv beta.
  destruct (disassociateLoop conn (Id d) clusters _) as [[e|] w2]; [done|].
  destruct (waitLoop conn (Id d) clusters w2) as [[e|] w3]; [done|].
  unfold invoke.
  destruct (ErrMessageContains _ _ _); [done|].
  by destruct (sdk _).
Qed.




(** ** EC2 traffic mirror filter Update *)

Lemma sameValue_sets (o n : option Value) :
  isSet o = true -> isSet n = true ->
  sameValue o n = bool_decide (asSet o = asSet n).
Proof.
  destruct o as [[]|], n as [[]|]; try done; simpl; intros _ _;
    apply bool_decide_ext; split; intros; by simplify_eq.
Qed.

(** A side of the request is left out when the difference is empty and
    lists the members of the difference otherwise. *)
Lemma expanded_difference (X : gset string) :
  match (if bool_decide (0 < size X)%nat then Some (ExpandStringSet X) else None) with
  | None => X = ∅
  | Some l => l ≠ [] ∧ NoDup l ∧ list_to_set l = X
  end.
Proof.
  case_bool_decide as Hsize.
  - unfold ExpandStringSet. split; [|split].
    + intros Hnil. apply elements_empty_inv in Hnil.
      apply leibniz_equiv in Hnil. subst X. rewrite size_empty in Hsize. lia.
    + apply NoDup_elements.
    + apply list_to_set_elements_L.
  - apply leibniz_equiv, size_empty_inv. lia.
Qed.

(** Read makes one call. *)
Lemma traffic_mirror_filter_read_calls (ext : Externals) (d : ResourceData)
    (meta : AWSClient) (w : World) :
  (resourceAwsEc2TrafficMirrorFilterRead ext d meta w).2
  = w ++ [DescribeTrafficMirrorFilters [Id d]].
Proof.
  unfold resourceAwsEc2TrafficMirrorFilterRead. unfold mbind, M_bind, invoke.
  destruct (ErrMessageContains _ _ _); [done|].
  destruct (onDescribeTrafficMirrorFilters _ _ _) as [out|e]; [|done].
  by destruct (ec2.TrafficMirrorFilters out).
Qed.

(** C6.  The modify call for the network services is issued only when
    that attribute changed, which for an attribute of set type means that
    the old and the new set differ; its request asks to add the members of
    new-minus-old and to remove the members of old-minus-new, a side being
    left out when the difference is empty.  The tags are updated only when
    [tags_all] changed.  When the calls issued succeed, Update is Read run
    after them, so its calls are those of the changed groups followed by
    the describe call of Read; when nothing changed, Update is Read and
    makes no modify call. *)
Theorem traffic_mirror_filter_update (ext : Externals) (d : ResourceData) (meta : AWSClient)
    (w : World) :
  let conn := EC2 meta in
  let o := asSet (prior d !! "network_services") in
  let n := asSet (attrs d !! "network_services") in
  let input := modifyNetworkServicesInput d in
  let run := resourceAwsEc2TrafficMirrorFilterUpdate ext d meta w in
  ec2.ModTrafficMirrorFilterId input = Id d
  ∧ match ec2.AddNetworkServices input with
    | None => n ∖ o = ∅
    | Some add => add ≠ [] ∧ NoDup add ∧ list_to_set add = n ∖ o
    end
  ∧ match ec2.RemoveNetworkServices input with
    | None => o ∖ n = ∅
    | Some remove => remove ≠ [] ∧ NoDup remove ∧ list_to_set remove = o ∖ n
    end
  ∧ (isSet (prior d !! "network_services") = true ->
     isSet (attrs d !! "network_services") = true ->
     (HasChange d "network_services" = true <-> o ≠ n))
  ∧ ((HasChange d "network_services" = true ->
      onModifyTrafficMirrorFilterNetworkServices conn w input = None) ->
     (HasChange d "tags_all" = true ->
      onEc2UpdateTags conn (w ++ networkServicesCalls d) (Id d)
        (prior d !! "tags_all") (attrs d !! "tags_all") = None) ->
     run = resourceAwsEc2TrafficMirrorFilterRead ext d meta
             (w ++ networkServicesCalls d ++ tagsCalls d)
     ∧ run.2 = w ++ networkServicesCalls d ++ tagsCalls d
                 ++ [DescribeTrafficMirrorFilters [Id d]])
  ∧ (HasChange d "network_services" = false ->
     HasChange d "tags_all" = false ->
     run = resourceAwsEc2TrafficMirrorFilterRead ext d meta w
     ∧ run.2 = w ++ [DescribeTrafficMirrorFilters [Id d]]).
Proof.
  intros conn o n input run.
  assert ((HasChange d "network_services" = true ->
           onModifyTrafficMirrorFilterNetworkServices conn w input = None) ->
          (HasChange d "tags_all" = true ->
           onEc2UpdateTags conn (w ++ networkServicesCalls d) (Id d)
             (prior d !! "tags_all") (attrs d !! "tags_all") = None) ->
          run = resourceAwsEc2TrafficMirrorFilterRead ext d meta
                  (w ++ networkServicesCalls d ++ tagsCalls d)) as Hrun.
  { intros Hmodify Htags. subst conn input.
    unfold run, resourceAwsEc2TrafficMirrorFilterUpdate, networkServicesCalls, tagsCalls in *.
    unfold mbind, M_bind, mret, M_ret, invoke, GetChange.
    destruct (HasChange d "network_services").
    - rewrite (Hmodify eq_refl). cbn [sdk fmap option_fmap option_map].
      destruct (HasChange d "tags_all").
      + rewrite (Htags eq_refl). by rewrite <- !app_assoc.
      + by rewrite app_nil_r.
    - rewrite app_nil_r in Htags. destruct (HasChange d "tags_all").
      + by rewrite (Htags eq_refl).
      + by rewrite app_nil_r. }
  split; [done|]. split; [apply expanded_difference|]. split; [apply expanded_difference|].
  split; [|split].
  - intros Ho Hn. unfold HasChange. rewrite (sameValue_sets _ _ Ho Hn). fold o n.
    rewrite negb_true_iff, bool_decide_eq_false. done.
  - intros Hmodify Htags. split; [by apply Hrun|].
    rewrite (Hrun Hmodify Htags), traffic_mirror_filter_read_calls.
    by rewrite <- !app_assoc.
  - intros Hns Htags.
    assert (run = resourceAwsEc2TrafficMirrorFilterRead ext d meta w) as ->.
    { rewrite Hrun; unfold networkServicesCalls, tagsCalls; rewrite ?Hns, ?Htags;
        [by rewrite app_nil_r | done | done]. }
    split; [done|]. apply traffic_mirror_filter_read_calls.
Qed.

Lemma traffic_mirror_filter_update_witness :
  (resourceAwsEc2TrafficMirrorFilterUpdate someExternals changedFilter (ec2Client quietEC2) []).2
  = [ModifyTrafficMirrorFilterNetworkServices
       (ec2.mkModifyTrafficMirrorFilterNetworkServicesInput "tmf-1" (Some ["c"]) (Some ["a"]));
     DescribeTrafficMirrorFilters ["tmf-1"]]
  ∧ (resourceAwsEc2TrafficMirrorFilterUpdate someExternals
       (resourceDataOf "tmf-1" false []) (ec2Client quietEC2) []).2
    = [DescribeTrafficMirrorFilters ["tmf-1"]].
Proof.
  split.
  - destruct (traffic_mirror_filter_update someExternals changedFilter (ec2Client quietEC2) [])
      as (_ & _ & _ & _ & Hcalls & _).
    destruct Hcalls as [_ ->]; [reflexivity | reflexivity |].
    vm_compute. reflexivity.
  - destruct (traffic_mirror_filter_update someExternals (resourceDataOf "tmf-1" false [])
                (ec2Client quietEC2) []) as (_ & _ & _ & _ & _ & Hnone).
    destruct Hnone as [_ ->]; reflexivity.
Defined.

(** ** Tags sent by Create *)

Lemma MergeTags_lookup (defaultTagsConfig : option KeyValueTags) (tags : KeyValueTags)
    (k : string) :
  MergeTags defaultTagsConfig tags !! k
  = match tags !! k with
    | Some v => Some v
    | None => default ∅ defaultTagsConfig !! k
    end.
Proof.
  destruct defaultTagsConfig as [defaults|]; simpl.
  - rewrite lookup_union. by destruct (tags !! k), (defaults !! k).
  - by destruct (tags !! k).
Qed.

Lemma IgnoreAws_lookup (tags : KeyValueTags) (k : string) :
  IgnoreAws tags !! k = if HasPrefix k AwsTagKeyPrefix then None else tags !! k.
Proof.
  unfold IgnoreAws. destruct (HasPrefix k AwsTagKeyPrefix) eqn:Hk.
  - apply map_lookup_filter_None. right. intros v _. simpl. by rewrite Hk.
  - destruct (tags !! k) as [v|] eqn:Hv.
    + by apply map_lookup_filter_Some.
    + apply map_lookup_filter_None. by left.
Qed.

Lemma retryLoop_S (attempts : nat) (f : M (option RetryError)) (w : World) :
  retryLoop (S attempts) f w
  = let '(r, w') := f w in
    match r with
    | None => (None, w')
    | Some rerr =>
        if Retryable rerr then retryLoop attempts f w' else (Some (RetryErr rerr), w')
    end.
Proof.
  cbn [retryLoop]. unfold mbind, M_bind.
  destruct (f w) as [[rerr|] w']; [by destruct (Retryable rerr) | done].
Qed.

(** A retry loop that may try at least once starts with a creation call. *)
Lemma retryLoop_first_call (conn : AccessAnalyzerConn)
    (input : accessanalyzer.CreateAnalyzerInput) (attempts : nat) (w : World) :
  exists rest,
    (retryLoop (S attempts) (createAnalyzerAttempt conn input) w).2
    = w ++ CreateAnalyzer input :: rest.
Proof.
  revert w. induction attempts as [|attempts IH]; intros w;
    rewrite retryLoop_S, createAnalyzerAttempt_run; cbv zeta;
    destruct (if organizationNotReady _ then _ else _) as [[e []]|]; cbn [Retryable];
    try (exists []; reflexivity).
  destruct (IH (w ++ [CreateAnalyzer input])) as [rest ->].
  exists (CreateAnalyzer input :: rest). by rewrite <- app_assoc.
Qed.

Lemma analyzer_read_calls (ext : Externals) (d : ResourceData) (meta : AWSClient) (w : World) :
  (resourceAwsAccessAnalyzerAnalyzerRead ext d meta w).2 = w ++ [GetAnalyzer (Id d)].
Proof.
  unfold resourceAwsAccessAnalyzerAnalyzerRead. unfold mbind, M_bind, invoke.
  destruct (negb _ && _); [done|].
  by destruct (onGetAnalyzer _ _ _) as [[[[?|]]|]|e].
Qed.

Lemma snapshot_schedule_read_calls (ext : Externals) (d : ResourceData) (meta : AWSClient)
    (w : World) :
  (resourceAwsRedshiftSnapshotScheduleRead ext d meta w).2
  = w ++ [DescribeSnapshotSchedules (Id d)].
Proof.
  unfold resourceAwsRedshiftSnapshotScheduleRead. unfold mbind, M_bind, invoke.
  destruct (onDescribeSnapshotSchedules _ _ _) as [resp|e]; [|done].
  by destruct (redshift.SnapshotSchedules resp) as [|? [|? ?]].
Qed.

(** Replace the history after a Read by the history before it and the
    one call of Read. *)
Ltac read_calls :=
  let H := fresh "Hcalls" in
  match goal with
  | |- context [(resourceAwsAccessAnalyzerAnalyzerRead ?e ?d ?m ?w).2] =>
      pose proof (analyzer_read_calls e d m w) as H
  | |- context [(resourceAwsRedshiftSnapshotScheduleRead ?e ?d ?m ?w).2] =>
      pose proof (snapshot_schedule_read_calls e d m w) as H
  | |- context [(resourceAwsEc2TrafficMirrorFilterRead ?e ?d ?m ?w).2] =>
      pose proof (traffic_mirror_filter_read_calls e d m w) as H
  end;
  rewrite H; clear H.

(** The first call of the Access Analyzer Create is the creation call
    with the request built from the resource data. *)
Lemma analyzer_create_first_call (ext : Externals) (d : ResourceData) (meta : AWSClient)
    (w : World) :
  exists rest,
    (resourceAwsAccessAnalyzerAnalyzerCreate ext d meta w).2
    = w ++ CreateAnalyzer (createAnalyzerInput ext d meta w) :: rest.
Proof.
  unfold resourceAwsAccessAnalyzerAnalyzerCreate, Retry, mbind, M_bind, history.
  set (input := createAnalyzerInput ext d meta w).
  destruct (attemptsWithin ext accessAnalyzerOrganizationCreationTimeout) as [|attempts].
  - cbn [retryLoop mret M_ret TimedOut]. unfold invoke.
    destruct (sdk _); [by exists []|].
    read_calls. eexists. rewrite <- app_assoc. simpl. reflexivity.
  - destruct (retryLoop_first_call (AccessAnalyzer meta) input attempts w) as [rest Hrest].
    destruct (retryLoop _ _ w) as [err w1]. simpl in Hrest. subst w1.
    destruct (TimedOut err); unfold invoke.
    + destruct (sdk _).
      * exists (rest ++ [CreateAnalyzer input]). by rewrite <- app_assoc.
      * read_calls. eexists. rewrite <- !app_assoc. simpl. reflexivity.
    + destruct err; cbn [mret M_ret].
      * by exists rest.
      * read_calls. eexists. rewrite <- !app_assoc. simpl. reflexivity.
Qed.

Lemma snapshot_schedule_create_first_call (ext : Externals) (d : ResourceData)
    (meta : AWSClient) (w : World) :
  exists rest,
    (resourceAwsRedshiftSnapshotScheduleCreate ext d meta w).2
    = w ++ CreateSnapshotSchedule (createSnapshotScheduleInput ext d meta w) :: rest.
Proof.
  unfold resourceAwsRedshiftSnapshotScheduleCreate, mbind, M_bind, history, invoke.
  destruct (onCreateSnapshotSchedule _ _ _) as [resp|e]; [|by exists []].
  read_calls. eexists. rewrite <- app_assoc. simpl. reflexivity.
Qed.

Lemma traffic_mirror_filter_create_first_call (ext : Externals) (d : ResourceData)
    (meta : AWSClient) (w : World) :
  exists rest,
    (resourceAwsEc2TrafficMirrorFilterCreate ext d meta w).2
    = w ++ CreateTrafficMirrorFilter (createTrafficMirrorFilterInput ext d meta) :: rest.
Proof.
  unfold resourceAwsEc2TrafficMirrorFilterCreate, mbind, M_bind, invoke.
  destruct (onCreateTrafficMirrorFilter _ _ _) as [out|e]; [|by exists []].
  cbv zeta. destruct (GetOk _ _) as [v [|]].
  - destruct (sdk _); [eexists; rewrite <- app_assoc; simpl; reflexivity|].
    read_calls. eexists. rewrite <- !app_assoc. simpl. reflexivity.
  - cbn [mret M_ret]. read_calls.
    eexists. rewrite <- !app_assoc. simpl. reflexivity.
Qed.


(** The example of the spec: default tags [{a:1}] and resource tags
    [{a:2, b:3}] make the three Creates send [{a:2, b:3}]. *)
Example create_tags_example :
  let d := taggedResource exampleTags in
  accessanalyzer.Tags (createAnalyzerInput someExternals d exampleClient []) = exampleTags
  ∧ redshift.Tags (createSnapshotScheduleInput someExternals d exampleClient []) = exampleTags
  ∧ ec2.TagSpecifications (createTrafficMirrorFilterInput someExternals d exampleClient)
    = [ec2.mkTagSpecification ec2.ResourceTypeTrafficMirrorFilter exampleTags].
Proof. intros d. split; [|split]; vm_compute; reflexivity. Qed.


(** ** Errors handed to the caller *)

Lemma string_app_nil_r (s : string) : s +:+ "" = s.
Proof. induction s as [|c s IH]; [done | exact (f_equal (String c) IH)]. Qed.

Lemma Contains_refl (s : string) : Contains s s = true.
Proof. rewrite <- (string_app_nil_r s) at 1. apply Contains_prefix. Qed.

Lemma Contains_app_r (a t sub : string) :
  Contains t sub = true -> Contains (a +:+ t) sub = true.
Proof.
  intros Ht. induction a as [|c a IH]; [done|].
  simpl. rewrite IH. apply orb_true_r.
Qed.

(** A part of a message that is put together with [+:+] is contained in it. *)
Ltac contains :=
  repeat first [apply Contains_refl | apply Contains_prefix | apply Contains_app_r].

Ltac surfaced_with e :=
  exists e; split; [reflexivity|]; split; [vm_compute; reflexivity | contains].

Ltac annotated_with e :=
  split; [surfaced_with e | exists e; split; [reflexivity | contains]].




(** * Further properties of the callbacks *)

(** ** What Read and Delete leave alone *)



(** X2.  No Delete writes to the resource data: whatever the service
    answers, with or without the force-destroy clean-up, the data come
    back as they went in.  Removing the resource from the state is left to
    the caller. *)
Theorem delete_keeps_data (ext : Externals) (d : ResourceData) (meta : AWSClient) (w : World) :
  (resourceAwsAccessAnalyzerAnalyzerDelete ext d meta w).1.2 = d
  ∧ (resourceAwsRedshiftSnapshotScheduleDelete d meta w).1.2 = d
  ∧ (resourceAwsEc2TrafficMirrorFilterDelete d meta w).1.2 = d.
Proof.
  repeat apply conj.
  - unfold resourceAwsAccessAnalyzerAnalyzerDelete, mbind, M_bind, invoke, history.
    destruct (ErrMessageContains _ _ _); [done|]. by destruct (sdk _).
  - unfold resourceAwsRedshiftSnapshotScheduleDelete, mbind, M_bind.
    destruct (if asBool (Get d "force_destroy") then _ else _) as [[e|] w1]; [done|].
    unfold invoke. destruct (ErrMessageContains _ _ _); [done|]. by destruct (sdk _).
  - unfold resourceAwsEc2TrafficMirrorFilterDelete, mbind, M_bind, invoke.
    by destruct (sdk _).
Qed.

(** X3.  Every Read makes exactly one call, the get or describe call for
    the identifier of the resource, whatever the answer and whatever it
    returns. *)
Theorem read_makes_one_call (ext : Externals) (d : ResourceData) (meta : AWSClient)
    (w : World) :
  (resourceAwsAccessAnalyzerAnalyzerRead ext d meta w).2 = w ++ [GetAnalyzer (Id d)]
  ∧ (resourceAwsRedshiftSnapshotScheduleRead ext d meta w).2
    = w ++ [DescribeSnapshotSchedules (Id d)]
  ∧ (resourceAwsEc2TrafficMirrorFilterRead ext d meta w).2
    = w ++ [DescribeTrafficMirrorFilters [Id d]].
Proof.
  repeat apply conj.
  - apply analyzer_read_calls.
  - apply snapshot_schedule_read_calls.
  - apply traffic_mirror_filter_read_calls.
Qed.

(** ** Access Analyzer analyzer *)

(** The calls of the retry loop: never more than the attempts allowed,
    and at least one unless the loop gives up. *)
Lemma retryLoop_calls (conn : AccessAnalyzerConn) (input : accessanalyzer.CreateAnalyzerInput)
    (attempts : nat) :
  forall w : World,
    exists n,
      (n <= attempts)%nat
      ∧ (retryLoop attempts (createAnalyzerAttempt conn input) w).2
        = w ++ replicate n (CreateAnalyzer input)
      ∧ (TimedOut (retryLoop attempts (createAnalyzerAttempt conn input) w).1 = false ->
         (1 <= n)%nat).
Proof.
  induction attempts as [|attempts IH]; intros w.
  - exists 0%nat. simpl. rewrite app_nil_r. split; [lia|]. by split.
  - rewrite retryLoop_S, createAnalyzerAttempt_run. cbv zeta.
    unfold createAnswer. simpl replicate. rewrite app_nil_r.
    destruct (onCreateAnalyzer conn w input) as [a|]; cbn [sdk fmap option_fmap option_map].
    + destruct (organizationNotReady (Some (AwsErr a))); cbn [RetryableError NonRetryableError Retryable].
      * destruct (IH (w ++ [CreateAnalyzer input])) as (n & Hn & Hcalls & _).
        exists (S n). rewrite Hcalls, <- app_assoc.
        split; [lia|]. split; [done|]. intros _. lia.
      * exists 1%nat. split; [lia|]. split; [done|]. intros _. lia.
    + change (organizationNotReady None) with false. cbn [NonRetryableError].
      exists 1%nat. split; [lia|]. split; [done|]. intros _. lia.
Qed.

(** X4.  Create never makes more creation calls than the attempts that fit
    in the ceiling plus one, and it makes at least one; the only other call
    it can make is the get call of Read, after the last creation call. *)
Theorem analyzer_create_call_bound (ext : Externals) (d : ResourceData) (meta : AWSClient)
    (w : World) :
  let input := createAnalyzerInput ext d meta w in
  let attempts := attemptsWithin ext accessAnalyzerOrganizationCreationTimeout in
  let calls := (resourceAwsAccessAnalyzerAnalyzerCreate ext d meta w).2 in
  exists n,
    (1 <= n <= S attempts)%nat
    ∧ (calls = w ++ replicate n (CreateAnalyzer input)
       ∨ calls = w ++ replicate n (CreateAnalyzer input)
                   ++ [GetAnalyzer (asString (Get d "analyzer_name"))]).
Proof.
  intros input attempts calls. subst calls.
  unfold resourceAwsAccessAnalyzerAnalyzerCreate, Retry, mbind, M_bind, history.
  fold input attempts.
  destruct (retryLoop_calls (AccessAnalyzer meta) input attempts w) as (n & Hn & Hcalls & Hone).
  destruct (retryLoop attempts _ w) as [err w1]. simpl in Hcalls, Hone. subst w1.
  destruct (TimedOut err) eqn:Htimeout.
  - unfold invoke. exists (S n). split; [lia|].
    rewrite replicate_S_end, !app_assoc.
    destruct (sdk _); [by left | right]. read_calls. by rewrite <- !app_assoc.
  - cbn [mret M_ret]. exists n. split; [specialize (Hone eq_refl); lia|].
    destruct err; [by left | right]. read_calls. by rewrite <- !app_assoc.
Qed.

Lemma analyzer_read_new_keeps_id (ext : Externals) (d : ResourceData) (meta : AWSClient)
    (w : World) :
  IsNewResource d = true ->
  (resourceAwsAccessAnalyzerAnalyzerRead ext d meta w).1.1 = None ->
  Id (resourceAwsAccessAnalyzerAnalyzerRead ext d meta w).1.2 = Id d.
Proof.
  intros Hnew. unfold resourceAwsAccessAnalyzerAnalyzerRead, mbind, M_bind, invoke.
  rewrite Hnew. cbn [negb andb].
  by destruct (onGetAnalyzer _ _ _) as [[[[a|]]|]|a].
Qed.

(** X5.  A Create of a new resource that returns no error leaves the
    identifier set to the analyzer name of the configuration: the Read it
    ends with cannot clear the identifier of a new resource. *)
Theorem analyzer_create_sets_name_as_id (ext : Externals) (d : ResourceData)
    (meta : AWSClient) (w : World) :
  IsNewResource d = true ->
  (resourceAwsAccessAnalyzerAnalyzerCreate ext d meta w).1.1 = None ->
  Id (resourceAwsAccessAnalyzerAnalyzerCreate ext d meta w).1.2
  = asString (Get d "analyzer_name").
Proof.
  intros Hnew.
  unfold resourceAwsAccessAnalyzerAnalyzerCreate, Retry, mbind, M_bind, history.
  destruct (retryLoop _ _ w) as [err w1].
  destruct (if TimedOut err then _ else _) as [[e|] w2]; [done|].
  intros Hok. by rewrite analyzer_read_new_keeps_id.
Qed.

Lemma analyzer_create_sets_name_as_id_witness :
  Id (resourceAwsAccessAnalyzerAnalyzerCreate someExternals organizationAnalyzer
        (pendingClient 1 None) []).1.2 = "org".
Proof.
  apply (analyzer_create_sets_name_as_id someExternals organizationAnalyzer
           (pendingClient 1 None) []); reflexivity.
Defined.

(** ** What a successful Read stores *)

Lemma Get_Set_ (d : ResourceData) (key key' : string) (v : Value) :
  Get (Set_ key v d) key' = if decide (key = key') then Some v else Get d key'.
Proof. unfold Get, Set_. cbn [attrs]. apply lookup_insert. Qed.

(** Look an attribute up through the writes of a Read. *)
Ltac attr_lookup :=
  repeat (rewrite Get_Set_; case_decide; simplify_eq; try done).



(** X7.  When the service says nothing about the analyzer (no output, or an
    output without an analyzer), the Access Analyzer Read returns an error
    that says "empty response" and names the identifier, and leaves the
    resource data as they were. *)
Theorem analyzer_read_empty_response (ext : Externals) (d : ResourceData) (meta : AWSClient)
    (w : World) :
  onGetAnalyzer (AccessAnalyzer meta) w (Id d) = Ok None
  ∨ onGetAnalyzer (AccessAnalyzer meta) w (Id d)
    = Ok (Some (accessanalyzer.mkGetAnalyzerOutput None)) ->
  resourceAwsAccessAnalyzerAnalyzerRead ext d meta w
  = (Some (Errorf ("error getting Access Analyzer Analyzer (" +:+ Id d
                     +:+ "): empty response")),
     d, w ++ [GetAnalyzer (Id d)]).
Proof.
  intros Hanswer.
  unfold resourceAwsAccessAnalyzerAnalyzerRead, mbind, M_bind, invoke.
  destruct Hanswer as [-> | ->]; cbn [errOf ErrCodeEquals]; by rewrite andb_false_r.
Qed.

Lemma analyzer_read_empty_response_witness :
  resourceAwsAccessAnalyzerAnalyzerRead someExternals (resourceDataOf "org" false [])
    (clientOf quietWAFRegional quietAccessAnalyzer quietRedshift quietEC2 None) []
  = (Some (Errorf "error getting Access Analyzer Analyzer (org): empty response"),
     resourceDataOf "org" false [], [GetAnalyzer "org"]).
Proof.
  apply (analyzer_read_empty_response someExternals (resourceDataOf "org" false [])
           (clientOf quietWAFRegional quietAccessAnalyzer quietRedshift quietEC2 None) []).
  left. reflexivity.
Defined.





(** ** Redshift snapshot schedule: Update, Delete and Create *)

(** X10.  The Redshift Update takes the tags first: when the update of the
    tags fails, Update returns an error that names the ARN attribute and
    carries the cause, and makes no other call, neither the modify call
    for changed definitions nor the describe call of Read. *)
Theorem snapshot_schedule_update_tags_failure (ext : Externals) (d : ResourceData)
    (meta : AWSClient) (w : World) (e : error) :
  let arn := asString (Get d "arn") in
  HasChange d "tags_all" = true ->
  onRedshiftUpdateTags (Redshift meta) w arn (prior d !! "tags_all") (attrs d !! "tags_all")
    = Some e ->
  resourceAwsRedshiftSnapshotScheduleUpdate ext d meta w
  = (Some (Errorf ("error updating Redshift Snapshot Schedule (" +:+ arn +:+ ") tags: "
                     +:+ ErrorString e)),
     d, w ++ redshiftTagsCalls d)
  ∧ redshiftTagsCalls d
    = [RedshiftUpdateTags arn (prior d !! "tags_all") (attrs d !! "tags_all")].
Proof.
  intros arn Hchange Hanswer.
  unfold resourceAwsRedshiftSnapshotScheduleUpdate, redshiftTagsCalls, mbind, M_bind, invoke,
    GetChange.
  fold arn. by rewrite Hchange, Hanswer.
Qed.

Lemma snapshot_schedule_update_tags_failure_witness :
  resourceAwsRedshiftSnapshotScheduleUpdate someExternals retaggedSchedule
    (redshiftClient tagsFailingRedshift) []
  = (Some (Errorf ("error updating Redshift Snapshot Schedule "
                     +:+ "(arn:aws:redshift:::snapshotschedule:nightly) tags: "
                     +:+ "error tagging resource")),
     retaggedSchedule, redshiftTagsCalls retaggedSchedule).
Proof.
  apply (snapshot_schedule_update_tags_failure someExternals retaggedSchedule
           (redshiftClient tagsFailingRedshift) [] (Errorf "error tagging resource"));
    reflexivity.
Defined.

(** X11.  When the definitions changed and the modify call is answered
    with the schedule-not-found code, the Redshift Update clears the
    identifier and returns no error, without a describe call: the modify
    call is the last call made. *)
Theorem snapshot_schedule_update_gone (ext : Externals) (d : ResourceData)
    (meta : AWSClient) (w : World) (msg : string) :
  let modifyOpts :=
    redshift.mkModifySnapshotScheduleInput (Id d)
      (ExpandStringSet (asSet (Get d "definitions"))) in
  (HasChange d "tags_all" = true ->
   onRedshiftUpdateTags (Redshift meta) w (asString (Get d "arn"))
     (prior d !! "tags_all") (attrs d !! "tags_all") = None) ->
  HasChange d "definitions" = true ->
  onModifySnapshotSchedule (Redshift meta) (w ++ redshiftTagsCalls d) modifyOpts
    = Some (mkAwsErr redshift.ErrCodeSnapshotScheduleNotFoundFault msg) ->
  resourceAwsRedshiftSnapshotScheduleUpdate ext d meta w
  = (None, SetId "" d, w ++ redshiftTagsCalls d ++ [ModifySnapshotSchedule modifyOpts]).
Proof.
  intros modifyOpts Htags Hchange Hanswer.
  unfold resourceAwsRedshiftSnapshotScheduleUpdate, redshiftTagsCalls in *.
  unfold mbind, M_bind, invoke, GetChange. fold modifyOpts.
  destruct (HasChange d "tags_all").
  - rewrite (Htags eq_refl), Hchange, Hanswer. cbn [sdk fmap option_fmap option_map].
    cbn [ErrMessageContains Code Message]. rewrite Contains_empty.
    rewrite bool_decide_eq_true_2 by done. by rewrite <- app_assoc.
  - rewrite app_nil_r in Hanswer. cbn [mret M_ret]. rewrite Hchange, Hanswer.
    cbn [sdk fmap option_fmap option_map ErrMessageContains Code Message].
    rewrite Contains_empty. by rewrite bool_decide_eq_true_2 by done.
Qed.

Lemma snapshot_schedule_update_gone_witness :
  resourceAwsRedshiftSnapshotScheduleUpdate someExternals rescheduled
    (redshiftClient goneRedshift) []
  = (None, SetId "" rescheduled,
     [ModifySnapshotSchedule
        (redshift.mkModifySnapshotScheduleInput "nightly" ["rate(6 hours)"])]).
Proof.
  apply (snapshot_schedule_update_gone someExternals rescheduled (redshiftClient goneRedshift)
           [] "no such schedule").
  - intros Hchange. vm_compute in Hchange. discriminate.
  - reflexivity.
  - reflexivity.
Defined.

(** X12.  An Update that finds nothing changed among the attributes it
    handles makes no update call and is the Read of the resource: this
    holds for the analyzer (tags) and for the snapshot schedule (tags and
    definitions). *)
Theorem update_without_changes_is_read (ext : Externals) (d : ResourceData)
    (meta : AWSClient) (w : World) :
  HasChange d "tags_all" = false ->
  resourceAwsAccessAnalyzerAnalyzerUpdate ext d meta w
  = resourceAwsAccessAnalyzerAnalyzerRead ext d meta w
  ∧ (HasChange d "definitions" = false ->
     resourceAwsRedshiftSnapshotScheduleUpdate ext d meta w
     = resourceAwsRedshiftSnapshotScheduleRead ext d meta w).
Proof.
  intros Htags. split.
  - unfold resourceAwsAccessAnalyzerAnalyzerUpdate, mbind, M_bind. by rewrite Htags.
  - intros Hdefinitions.
    unfold resourceAwsRedshiftSnapshotScheduleUpdate, mbind, M_bind.
    by rewrite Htags, Hdefinitions.
Qed.

Lemma update_without_changes_is_read_witness :
  let d := resourceDataOf "org" false [] in
  let meta := pendingClient 0 None in
  resourceAwsAccessAnalyzerAnalyzerUpdate someExternals d meta []
  = resourceAwsAccessAnalyzerAnalyzerRead someExternals d meta [].
Proof.
  intros d meta.
  apply (update_without_changes_is_read someExternals d meta []). reflexivity.
Defined.

(** X13.  Without the force-destroy flag the Redshift Delete makes one
    call, the delete call, and returns no error exactly when that call
    succeeded or was answered with the schedule-not-found code. *)
Theorem snapshot_schedule_delete_plain (d : ResourceData) (meta : AWSClient) (w : World) :
  asBool (Get d "force_destroy") = false ->
  let answer := sdk (onDeleteSnapshotSchedule (Redshift meta) w (Id d)) in
  let run := resourceAwsRedshiftSnapshotScheduleDelete d meta w in
  run.2 = w ++ [DeleteSnapshotSchedule (Id d)]
  ∧ (run.1.1 = None
     <-> answer = None
         ∨ ErrMessageContains answer redshift.ErrCodeSnapshotScheduleNotFoundFault "" = true).
Proof.
  intros Hforce answer run. subst run.
  unfold resourceAwsRedshiftSnapshotScheduleDelete, mbind, M_bind, invoke.
  rewrite Hforce. cbn [mret M_ret]. fold answer.
  destruct (ErrMessageContains answer _ _) eqn:Hgone.
  - split; [done|]. split; [by right | done].
  - destruct answer as [e|]; (split; [done|]).
    + split; [done|]. by intros [|].
    + split; [by left | done].
Qed.

Lemma snapshot_schedule_delete_plain_witness :
  let run :=
    resourceAwsRedshiftSnapshotScheduleDelete (resourceDataOf "nightly" false [])
      (redshiftClient goneRedshift) [] in
  run.2 = [DeleteSnapshotSchedule "nightly"] ∧ run.1.1 = None.
Proof.
  intros run.
  destruct (snapshot_schedule_delete_plain (resourceDataOf "nightly" false [])
              (redshiftClient goneRedshift) []) as [Hcalls Hok]; [reflexivity|].
  split; [exact Hcalls|]. apply Hok. right. reflexivity.
Defined.

(** X14.  With the force-destroy flag set, a describe call answered with
    the schedule-not-found code makes Delete skip the clean-up of
    associations and go on to the delete call; a describe call that fails
    for any other reason ends Delete with an error that names the
    identifier and carries the cause, and the delete call is not made. *)
Theorem snapshot_schedule_forced_delete_describe_fails (d : ResourceData) (meta : AWSClient)
    (w : World) (cause : awserr) :
  asBool (Get d "force_destroy") = true ->
  onDescribeSnapshotSchedules (Redshift meta) w (Id d) = Err cause ->
  let w1 := w ++ [DescribeSnapshotSchedules (Id d)] in
  let run := resourceAwsRedshiftSnapshotScheduleDelete d meta w in
  if ErrMessageContains (Some (AwsErr cause)) redshift.ErrCodeSnapshotScheduleNotFoundFault ""
  then run.2 = w1 ++ [DeleteSnapshotSchedule (Id d)]
       ∧ (sdk (onDeleteSnapshotSchedule (Redshift meta) w1 (Id d)) = None -> run.1.1 = None)
  else run = (Some (Errorf ("Error describing Redshift Cluster Snapshot Schedule " +:+ Id d
                              +:+ ": " +:+ ErrorString (AwsErr cause))),
              d, w1).
Proof.
  intros Hforce Hanswer w1 run. subst run.
  unfold resourceAwsRedshiftSnapshotScheduleDelete,
    resourceAwsRedshiftSnapshotScheduleDeleteAllAssociatedClusters, mbind, M_bind.
  rewrite Hforce. unfold invoke. rewrite Hanswer. cbn [errOf]. fold w1.
  destruct (ErrMessageContains (Some (AwsErr cause)) _ _); cbn [mret M_ret];
    [|reflexivity].
  destruct (sdk (onDeleteSnapshotSchedule (Redshift meta) w1 (Id d))) as [e|].
  - split; [|done]. by destruct (ErrMessageContains _ _ _).
  - done.
Qed.

Lemma snapshot_schedule_forced_delete_describe_fails_witness :
  (resourceAwsRedshiftSnapshotScheduleDelete (nightlyForced false)
     (redshiftClient (redshiftDescribing
        (mkAwsErr redshift.ErrCodeSnapshotScheduleNotFoundFault "no such schedule"))) []).2
  = [DescribeSnapshotSchedules "nightly"; DeleteSnapshotSchedule "nightly"]
  ∧ resourceAwsRedshiftSnapshotScheduleDelete (nightlyForced false)
      (redshiftClient (redshiftDescribing internalFailure)) []
    = (Some (Errorf ("Error describing Redshift Cluster Snapshot Schedule nightly: "
                       +:+ "InternalFailure: try again later")),
       nightlyForced false, [DescribeSnapshotSchedules "nightly"]).
Proof.
  pose proof (snapshot_schedule_forced_delete_describe_fails (nightlyForced false)
                (redshiftClient (redshiftDescribing
                   (mkAwsErr redshift.ErrCodeSnapshotScheduleNotFoundFault "no such schedule")))
                [] (mkAwsErr redshift.ErrCodeSnapshotScheduleNotFoundFault "no such schedule")
                eq_refl eq_refl) as Hgone.
  pose proof (snapshot_schedule_forced_delete_describe_fails (nightlyForced false)
                (redshiftClient (redshiftDescribing internalFailure)) [] internalFailure
                eq_refl eq_refl) as Hfails.
  vm_compute in Hgone, Hfails. destruct Hgone as [Hcalls _].
  split; vm_compute; assumption.
Defined.



(** ** EC2 traffic mirror filter: Create, Update and Delete *)

(** X16.  After a successful creation call the EC2 Create sets the
    identifier to the one returned.  With network services configured it
    then asks, in one modify call, to add all of them and to remove none;
    when that call fails, Create returns an error that names the new
    identifier and the resource data keep that identifier, and no describe
    call is made.  Otherwise Create goes on to Read under the new
    identifier. *)
Theorem traffic_mirror_filter_create_after_creation (ext : Externals) (d : ResourceData)
    (meta : AWSClient) (w : World) (out : ec2.CreateTrafficMirrorFilterOutput) :
  let input := createTrafficMirrorFilterInput ext d meta in
  let id := StringValue (ec2.TrafficMirrorFilterId (ec2.CreatedFilter out)) in
  let w1 := w ++ [CreateTrafficMirrorFilter input] in
  let modify :=
    ec2.mkModifyTrafficMirrorFilterNetworkServicesInput id
      (Some (ExpandStringSet (asSet (Get d "network_services")))) None in
  let w2 := w1 ++ [ModifyTrafficMirrorFilterNetworkServices modify] in
  let run := resourceAwsEc2TrafficMirrorFilterCreate ext d meta w in
  onCreateTrafficMirrorFilter (EC2 meta) w input = Ok out ->
  ((GetOk d "network_services").2 = false ->
   run = resourceAwsEc2TrafficMirrorFilterRead ext (SetId id d) meta w1)
  ∧ ((GetOk d "network_services").2 = true ->
     match onModifyTrafficMirrorFilterNetworkServices (EC2 meta) w1 modify with
     | Some cause =>
         run = (Some (Wrapf ("error modifying EC2 Traffic Mirror Filter (" +:+ id
                               +:+ ") network services: " +:+ ErrorString (AwsErr cause))
                        (AwsErr cause)),
                SetId id d, w2)
     | None => run = resourceAwsEc2TrafficMirrorFilterRead ext (SetId id d) meta w2
     end).
Proof.
  intros input id w1 modify w2 run Hanswer. subst run.
  unfold resourceAwsEc2TrafficMirrorFilterCreate, mbind, M_bind, invoke.
  fold input. rewrite Hanswer. cbv zeta. fold id.
  change (GetOk (SetId id d) "network_services") with (GetOk d "network_services").
  destruct (GetOk d "network_services") as [v ok] eqn:Hservices.
  assert (v = Get d "network_services") as -> by (by injection Hservices as <- _).
  cbn [snd]. split; intros ->; cbn [mret M_ret].
  - done.
  - cbn [Id SetId]. fold modify w1.
    by destruct (onModifyTrafficMirrorFilterNetworkServices (EC2 meta) w1 modify).
Qed.

Lemma traffic_mirror_filter_create_after_creation_witness :
  let run :=
    resourceAwsEc2TrafficMirrorFilterCreate someExternals dnsPlanned
      (ec2Client modifyFailingEC2) [] in
  run.1.1
  = Some (Wrapf ("error modifying EC2 Traffic Mirror Filter (tmf-1) network services: "
                   +:+ "InternalFailure: try again later") (AwsErr internalFailure))
  ∧ Id run.1.2 = "tmf-1".
Proof.
  intros run.
  destruct (traffic_mirror_filter_create_after_creation someExternals dnsPlanned
              (ec2Client modifyFailingEC2) []
              (ec2.mkCreateTrafficMirrorFilterOutput
                 (ec2.mkTrafficMirrorFilter (Some "tmf-1") None ∅ [])) eq_refl)
    as [_ Hservices].
  specialize (Hservices eq_refl).
  change (onModifyTrafficMirrorFilterNetworkServices _ _ _) with (Some internalFailure)
    in Hservices.
  cbv beta iota in Hservices.
  split.
  - exact (f_equal (fun r => r.1.1) Hservices).
  - exact (f_equal (fun r => Id r.1.2) Hservices).
Defined.

(** X17.  The request of the EC2 Update turns the old set of network
    services into the new one: the services it adds are none of the old
    ones, the services it removes are all old ones, no service is both
    added and removed, and removing and adding as asked leads from the old
    set to the new set. *)
Theorem traffic_mirror_filter_update_request_applies (d : ResourceData) :
  let o := asSet (prior d !! "network_services") in
  let n := asSet (attrs d !! "network_services") in
  let input := modifyNetworkServicesInput d in
  let add : gset string := list_to_set (default [] (ec2.AddNetworkServices input)) in
  let remove : gset string := list_to_set (default [] (ec2.RemoveNetworkServices input)) in
  add ## o ∧ remove ⊆ o ∧ add ## remove ∧ (o ∖ remove) ∪ add = n.
Proof.
  intros o n input add remove.
  assert (add = n ∖ o) as ->.
  { subst add input. unfold modifyNetworkServicesInput, GetChange.
    cbn [ec2.AddNetworkServices]. fold o n.
    pose proof (expanded_difference (n ∖ o)) as Hadd.
    destruct (if bool_decide _ then _ else _) as [l|]; simpl.
    - by destruct Hadd as (_ & _ & ->).
    - by rewrite Hadd. }
  assert (remove = o ∖ n) as ->.
  { subst remove input. unfold modifyNetworkServicesInput, GetChange.
    cbn [ec2.RemoveNetworkServices]. fold o n.
    pose proof (expanded_difference (o ∖ n)) as Hremove.
    destruct (if bool_decide _ then _ else _) as [l|]; simpl.
    - by destruct Hremove as (_ & _ & ->).
    - by rewrite Hremove. }
  split; [|split; [|split]].
  - apply elem_of_disjoint. intros x Hx Ho. apply elem_of_difference in Hx. tauto.
  - apply elem_of_subseteq. intros x Hx. apply elem_of_difference in Hx. tauto.
  - apply elem_of_disjoint. intros x Hadd Hremove.
    apply elem_of_difference in Hadd, Hremove. tauto.
  - apply set_eq. intros x. rewrite elem_of_union, !elem_of_difference.
    destruct (decide (x ∈ o)), (decide (x ∈ n)); tauto.
Qed.

(** X18.  When the network services changed and the modify call fails,
    the EC2 Update returns an error that names the identifier and carries
    the cause, and stops: the tags are not updated, even if they changed,
    and Read is not run. *)
Theorem traffic_mirror_filter_update_modify_failure (ext : Externals) (d : ResourceData)
    (meta : AWSClient) (w : World) (cause : awserr) :
  HasChange d "network_services" = true ->
  onModifyTrafficMirrorFilterNetworkServices (EC2 meta) w (modifyNetworkServicesInput d)
    = Some cause ->
  resourceAwsEc2TrafficMirrorFilterUpdate ext d meta w
  = (Some (Wrapf ("error modifying EC2 Traffic Mirror Filter (" +:+ Id d
                    +:+ ") network services: " +:+ ErrorString (AwsErr cause))
             (AwsErr cause)),
     d, w ++ [ModifyTrafficMirrorFilterNetworkServices (modifyNetworkServicesInput d)]).
Proof.
  intros Hchange Hanswer.
  unfold resourceAwsEc2TrafficMirrorFilterUpdate, mbind, M_bind, invoke.
  by rewrite Hchange, Hanswer.
Qed.

Lemma traffic_mirror_filter_update_modify_failure_witness :
  (resourceAwsEc2TrafficMirrorFilterUpdate someExternals changedFilter
     (ec2Client modifyFailingEC2) []).2
  = [ModifyTrafficMirrorFilterNetworkServices
       (ec2.mkModifyTrafficMirrorFilterNetworkServicesInput "tmf-1" (Some ["c"]) (Some ["a"]))].
Proof.
  rewrite (traffic_mirror_filter_update_modify_failure someExternals changedFilter
             (ec2Client modifyFailingEC2) [] internalFailure eq_refl eq_refl).
  vm_compute. reflexivity.
Defined.

(** X19.  The EC2 Delete makes one call, the delete call for the
    identifier, and returns no error exactly when that call returned
    none: every error of the call reaches the caller. *)
Theorem traffic_mirror_filter_delete_reports_every_error (d : ResourceData)
    (meta : AWSClient) (w : World) :
  let run := resourceAwsEc2TrafficMirrorFilterDelete d meta w in
  run.2 = w ++ [DeleteTrafficMirrorFilter (Id d)]
  ∧ (run.1.1 = None <-> onDeleteTrafficMirrorFilter (EC2 meta) w (Id d) = None).
Proof.
  unfold resourceAwsEc2TrafficMirrorFilterDelete, mbind, M_bind, invoke. cbv zeta.
  by destruct (onDeleteTrafficMirrorFilter _ _ _).
Qed.

(** ** WAF regional rule data source: pages that fail, pages without end *)

Lemma listRulesLoop_paging (conn : WAFRegionalConn) (name : string)
    (pages : list waf.ListRulesOutput) (w w' : World) (marker marker' : option string) :
  Paging conn w marker pages w' marker' ->
  forall (fuel : nat) (rules : list waf.RuleSummary),
    listRulesLoop conn (length pages + fuel) name (waf.mkListRulesInput marker) rules w
    = listRulesLoop conn fuel name (waf.mkListRulesInput marker')
        (rules ++ matching name pages) w'.
Proof.
  induction 1 as [w marker | w marker out next rest w' marker' Hok Hnext _ IH];
    intros fuel rules.
  - unfold matching. simpl. by rewrite app_nil_r.
  - change (length (out :: rest) + fuel)%nat with (S (length rest + fuel)).
    cbn [listRulesLoop]. unfold mbind, M_bind, invoke. rewrite Hok, Hnext, IH.
    unfold matching. simpl. by rewrite filter_app, <- !app_assoc.
Qed.

(** X20.  A page that cannot be read fails the whole lookup: when the
    service has handed out some pages, each with a next marker, and the
    call for the page after them fails, the read returns an error that
    carries the cause, whatever the pages before held, leaves the
    resource data as they were and requests no further page. *)
Theorem waf_rule_lookup_page_error (meta : AWSClient) (d : ResourceData)
    (pages : list waf.ListRulesOutput) (fuel : nat) (w w' : World)
    (marker' : option string) (cause : awserr) :
  Paging (WAFRegional meta) w None pages w' marker' ->
  onListRules (WAFRegional meta) w' (waf.mkListRulesInput marker') = Err cause ->
  (length pages < fuel)%nat ->
  dataSourceAwsWafRegionalRuleRead fuel d meta w
  = (Some (Some (Wrapf ("error reading WAF Rule: " +:+ ErrorString (AwsErr cause))
                   (AwsErr cause)),
           d),
     w' ++ [ListRules (waf.mkListRulesInput marker')]).
Proof.
  intros Hpages Hfails Hfuel.
  unfold dataSourceAwsWafRegionalRuleRead, mbind, M_bind.
  replace fuel with (length pages + S (fuel - S (length pages)))%nat by lia.
  rewrite (listRulesLoop_paging _ _ _ _ _ _ _ Hpages).
  cbn [listRulesLoop]. unfold mbind, M_bind, invoke. by rewrite Hfails.
Qed.

Lemma waf_rule_lookup_page_error_witness :
  let d := resourceDataOf "" false [("name", VString "bar")] in
  dataSourceAwsWafRegionalRuleRead 5 d (wafClient brokenSecondPage) []
  = (Some (Some (Wrapf "error reading WAF Rule: InternalFailure: try again later"
                   (AwsErr internalFailure)),
           d),
     [ListRules (waf.mkListRulesInput None); ListRules (waf.mkListRulesInput (Some "page-2"))]).
Proof.
  intros d.
  apply (waf_rule_lookup_page_error (wafClient brokenSecondPage) d
           [waf.mkListRulesOutput [waf.mkRuleSummary (Some "bar") (Some "rule-2")]
              (Some "page-2")]
           5 [] [ListRules (waf.mkListRulesInput None)] (Some "page-2") internalFailure).
  - eapply Paging_next; [reflexivity | reflexivity | apply Paging_done].
  - reflexivity.
  - simpl. lia.
Defined.

Lemma listRulesLoop_endless (conn : WAFRegionalConn) (name : string) :
  (forall w marker, exists out next,
      onListRules conn w (waf.mkListRulesInput marker) = Ok out
      ∧ waf.OutNextMarker out = Some next) ->
  forall (fuel : nat) (marker : option string) (rules : list waf.RuleSummary) (w : World),
    (listRulesLoop conn fuel name (waf.mkListRulesInput marker) rules w).1 = None
    ∧ length (listRulesLoop conn fuel name (waf.mkListRulesInput marker) rules w).2
      = (length w + fuel)%nat.
Proof.
  intros Hmore. induction fuel as [|fuel IH]; intros marker rules w.
  - simpl. split; [done | lia].
  - cbn [listRulesLoop]. unfold mbind, M_bind, invoke.
    destruct (Hmore w marker) as (out & next & -> & ->).
    destruct (IH (Some next)
                (rules ++ filter (fun rule => StringValue (waf.Name rule) = name) (waf.Rules out))
                (w ++ [ListRules (waf.mkListRulesInput marker)])) as [Hnone Hcalls].
    split; [exact Hnone|]. rewrite Hcalls, length_app. simpl. lia.
Qed.

(** X21.  The lookup has no limit of its own on the number of pages:
    against a service that hands out a next marker with every page it goes
    on requesting pages and does not return, however many requests it is
    allowed. *)
Theorem waf_rule_lookup_has_no_page_limit (meta : AWSClient) (d : ResourceData)
    (fuel : nat) (w : World) :
  (forall w marker, exists out next,
      onListRules (WAFRegional meta) w (waf.mkListRulesInput marker) = Ok out
      ∧ waf.OutNextMarker out = Some next) ->
  (dataSourceAwsWafRegionalRuleRead fuel d meta w).1 = None
  ∧ length (dataSourceAwsWafRegionalRuleRead fuel d meta w).2 = (length w + fuel)%nat.
Proof.
  intros Hmore.
  destruct (listRulesLoop_endless (WAFRegional meta) (asString (Get d "name")) Hmore
              fuel None [] w) as [Hnone Hcalls].
  unfold dataSourceAwsWafRegionalRuleRead, mbind, M_bind.
  destruct (listRulesLoop _ _ _ _ _ w) as [r w1]. simpl in Hnone, Hcalls. by subst r.
Qed.

Lemma waf_rule_lookup_has_no_page_limit_witness :
  (dataSourceAwsWafRegionalRuleRead 7 (resourceDataOf "" false [("name", VString "bar")])
     (wafClient endlessPages) []).1 = None.
Proof.
  apply (waf_rule_lookup_has_no_page_limit (wafClient endlessPages)
           (resourceDataOf "" false [("name", VString "bar")]) 7 []).
  intros w marker. eexists. eexists. split; reflexivity.
Defined.

(** ** Helpers of the acceptance tests *)

Lemma receiptFilterNamed_true (id : string) (filters : list ses.ReceiptFilter) :
  receiptFilterNamed id filters = true
  <-> exists element, element ∈ filters ∧ StringValue (ses.Name element) = id.
Proof.
  induction filters as [|element rest IH]; simpl.
  - split; [done|]. intros (element & Hin & _). by apply elem_of_nil in Hin.
  - case_bool_decide as Hname.
    + split; [|done]. intros _. exists element. split; [apply list_elem_of_here | done].
    + rewrite IH. split.
      * intros (other & Hin & Hother). exists other. split; [by apply list_elem_of_further | done].
      * intros (other & Hin & Hother). apply elem_of_cons in Hin as [-> | Hin]; [done|].
        by exists other.
Qed.

(** X22.  The existence check of the SES receipt filter passes exactly
    when the resource is in the state with a non-empty identifier, the
    listing call succeeds and one of the filters listed bears the
    identifier as its name.  It makes no call when the resource is not in
    the state or has no identifier, and one listing call otherwise. *)
Theorem ses_receipt_filter_exists_iff (conn : SESConn) (n : string) (s : terraform.State)
    (w : list TestCall) :
  let run := testAccCheckAwsSESReceiptFilterExists conn n s w in
  (run.1 = None
   <-> exists rs filters,
         terraform.Resource s n = Some rs
         ∧ terraform.ID (terraform.Primary rs) ≠ ""
         ∧ onListReceiptFilters conn w = Ok filters
         ∧ exists element,
             element ∈ filters
             ∧ StringValue (ses.Name element) = terraform.ID (terraform.Primary rs))
  ∧ run.2 = match terraform.Resource s n with
            | None => w
            | Some rs =>
                if bool_decide (terraform.ID (terraform.Primary rs) = "") then w
                else w ++ [ListReceiptFilters]
            end.
Proof.
  unfold testAccCheckAwsSESReceiptFilterExists. cbv zeta.
  destruct (terraform.Resource s n) as [rs|].
  - case_bool_decide as Hid.
    + split; [|done]. split; [done|]. by intros (? & ? & [= <-] & ? & _).
    + destruct (onListReceiptFilters conn w) as [filters|err].
      * destruct (receiptFilterNamed _ filters) eqn:Hnamed; (split; [|done]).
        -- split; [|done]. intros _. exists rs, filters.
           by rewrite <- receiptFilterNamed_true.
        -- split; [done|]. intros (? & ? & [= <-] & _ & [= <-] & Hfound).
           apply receiptFilterNamed_true in Hfound. congruence.
      * split; [|done]. split; [done|]. by intros (? & ? & _ & _ & ? & _).
  - split; [|done]. split; [done|]. by intros (? & ? & ? & _).
Qed.

Lemma ofType_cons (type name : string) (rs : terraform.ResourceState)
    (rest : terraform.State) :
  ofType type ((name, rs) :: rest)
  = if decide (terraform.Type_ rs = type) then (name, rs) :: ofType type rest
    else ofType type rest.
Proof. reflexivity. Qed.

(** The destroy check of the SES receipt filter passes over the
    resources of other types. *)
Lemma ses_destroy_ofType (conn : SESConn) (s : terraform.State) :
  forall w : list TestCall,
    testAccCheckSESReceiptFilterDestroy conn s w
    = testAccCheckSESReceiptFilterDestroy conn (ofType "aws_ses_receipt_filter" s) w.
Proof.
  induction s as [|[name rs] rest IH]; intros w; [done|].
  rewrite ofType_cons. cbn [testAccCheckSESReceiptFilterDestroy].
  case_bool_decide as Htype; case_decide; try done.
  cbn [testAccCheckSESReceiptFilterDestroy]. rewrite bool_decide_eq_false_2 by (by intros ?).
  destruct (onListReceiptFilters conn w) as [filters|err]; [|done].
  by destruct (receiptFilterNamed _ filters).
Qed.

(** X23.  The destroy check of the SES receipt filter looks at the
    resources of type [aws_ses_receipt_filter] only: the resources of
    other types in the state change neither its result nor its calls,
    and a state without receipt filters passes without any call. *)
Theorem ses_receipt_filter_destroy_ignores_other_types (conn : SESConn)
    (s : terraform.State) (w : list TestCall) :
  testAccCheckSESReceiptFilterDestroy conn s w
  = testAccCheckSESReceiptFilterDestroy conn (ofType "aws_ses_receipt_filter" s) w
  ∧ (ofType "aws_ses_receipt_filter" s = [] ->
     testAccCheckSESReceiptFilterDestroy conn s w = (None, w)).
Proof.
  split; [apply ses_destroy_ofType|].
  intros Hnone. by rewrite ses_destroy_ofType, Hnone.
Qed.

Lemma ses_receipt_filter_destroy_ignores_other_types_witness :
  testAccCheckSESReceiptFilterDestroy (sesListing ["logs"])
    [("aws_s3_bucket.logs", someBucket)] []
  = (None, []).
Proof.
  apply (ses_receipt_filter_destroy_ignores_other_types (sesListing ["logs"])
           [("aws_s3_bucket.logs", someBucket)] []).
  reflexivity.
Defined.

Lemma ses_destroy_steady (conn : SESConn) (filters : list ses.ReceiptFilter)
    (s : terraform.State) :
  (forall w, onListReceiptFilters conn w = Ok filters) ->
  forall w : list TestCall,
    let run := testAccCheckSESReceiptFilterDestroy conn s w in
    (run.1 = None
     <-> forall name rs,
           (name, rs) ∈ s ->
           terraform.Type_ rs = "aws_ses_receipt_filter" ->
           receiptFilterNamed (terraform.ID (terraform.Primary rs)) filters = false)
    ∧ (run.1 = None ->
       run.2 = w ++ replicate (length (ofType "aws_ses_receipt_filter" s)) ListReceiptFilters).
Proof.
  intros Hsteady.
  induction s as [|[name rs] rest IH]; intros w; cbv zeta.
  - simpl. rewrite app_nil_r. split; [|done]. split; [|done].
    intros _ ? ? Hin. by apply elem_of_nil in Hin.
  - cbn [testAccCheckSESReceiptFilterDestroy]. rewrite ofType_cons.
    case_bool_decide as Htype; case_decide; try done.
    + destruct (IH w) as [Hiff Hcalls]. split; [|done].
      rewrite Hiff. split.
      * intros Hrest other rs' Hin. apply elem_of_cons in Hin as [[= -> ->] | Hin]; [done|].
        by apply (Hrest other).
      * intros Hall other rs' Hin. apply (Hall other). by apply list_elem_of_further.
    + rewrite Hsteady.
      destruct (receiptFilterNamed _ filters) eqn:Hnamed.
      * split; [|done]. split; [done|]. intros Hall.
        rewrite (Hall name rs) in Hnamed; [done | apply list_elem_of_here | done].
      * destruct (IH (w ++ [ListReceiptFilters])) as [Hiff Hcalls]. split.
        -- rewrite Hiff. split.
           ++ intros Hrest other rs' Hin.
              apply elem_of_cons in Hin as [[= -> ->] | Hin]; [done|]. by apply (Hrest other).
           ++ intros Hall other rs' Hin. apply (Hall other). by apply list_elem_of_further.
        -- intros Hnone. rewrite (Hcalls Hnone). simpl. by rewrite <- app_assoc.
Qed.

(** X24.  Against a service whose listing does not change, the destroy
    check of the SES receipt filter passes exactly when no receipt filter
    of the state is among the filters listed; when it passes it has made
    one listing call for each receipt filter of the state. *)
Theorem ses_receipt_filter_destroy_iff (conn : SESConn) (filters : list ses.ReceiptFilter)
    (s : terraform.State) (w : list TestCall) :
  (forall w, onListReceiptFilters conn w = Ok filters) ->
  let run := testAccCheckSESReceiptFilterDestroy conn s w in
  (run.1 = None
   <-> forall name rs,
         (name, rs) ∈ s ->
         terraform.Type_ rs = "aws_ses_receipt_filter" ->
         ¬ exists element,
             element ∈ filters
             ∧ StringValue (ses.Name element) = terraform.ID (terraform.Primary rs))
  ∧ (run.1 = None ->
     run.2 = w ++ replicate (length (ofType "aws_ses_receipt_filter" s)) ListReceiptFilters).
Proof.
  intros Hsteady run.
  destruct (ses_destroy_steady conn filters s Hsteady w) as [Hiff Hcalls].
  split; [|exact Hcalls]. fold run in Hiff. rewrite Hiff.
  split; intros Hall name rs Hin Htype.
  - rewrite <- receiptFilterNamed_true. by rewrite (Hall name rs Hin Htype).
  - apply not_true_is_false. rewrite receiptFilterNamed_true. by apply (Hall name rs).
Qed.

Lemma ses_receipt_filter_destroy_iff_witness :
  testAccCheckSESReceiptFilterDestroy (sesListing ["allow-office"]) filterState []
  = (None, [ListReceiptFilters]).
Proof.
  destruct (ses_receipt_filter_destroy_iff (sesListing ["allow-office"])
              [ses.mkReceiptFilter (Some "allow-office")] filterState [] (fun _ => eq_refl))
    as [Hiff Hcalls].
  assert ((testAccCheckSESReceiptFilterDestroy (sesListing ["allow-office"]) filterState []).1
          = None) as Hnone.
  { apply Hiff. intros name rs Hin Htype (element & Hlisted & Hname).
    apply list_elem_of_singleton in Hlisted as ->.
    apply elem_of_cons in Hin as [[= -> ->] | Hin]; [done|].
    apply list_elem_of_singleton in Hin as [= -> ->]. done. }
  specialize (Hcalls Hnone).
  destruct (testAccCheckSESReceiptFilterDestroy _ _ _) as [r calls].
  simpl in Hnone, Hcalls. by subst.
Defined.

(** X25.  On a state whose only receipt filter is the resource checked,
    with an identifier, and against a listing that succeeds, the
    existence check and the destroy check exclude each other and one of
    them passes: the first passes exactly when the second fails. *)
Theorem ses_receipt_filter_exists_or_destroyed (conn : SESConn) (n : string)
    (rs : terraform.ResourceState) (s : terraform.State) (w : list TestCall)
    (filters : list ses.ReceiptFilter) :
  terraform.Resource s n = Some rs ->
  ofType "aws_ses_receipt_filter" s = [(n, rs)] ->
  terraform.ID (terraform.Primary rs) ≠ "" ->
  onListReceiptFilters conn w = Ok filters ->
  (testAccCheckAwsSESReceiptFilterExists conn n s w).1 = None
  <-> (testAccCheckSESReceiptFilterDestroy conn s w).1 ≠ None.
Proof.
  intros Hresource Honly Hid Hlist.
  assert (terraform.Type_ rs = "aws_ses_receipt_filter") as Htype.
  { assert ((n, rs) ∈ ofType "aws_ses_receipt_filter" s) as Hin
      by (rewrite Honly; apply list_elem_of_here).
    unfold ofType in Hin. by apply list_elem_of_filter in Hin as [? _]. }
  rewrite ses_destroy_ofType, Honly.
  unfold testAccCheckAwsSESReceiptFilterExists. rewrite Hresource.
  rewrite bool_decide_eq_false_2 by done.
  cbn [testAccCheckSESReceiptFilterDestroy].
  rewrite bool_decide_eq_false_2 by (by intros ?).
  rewrite Hlist. by destruct (receiptFilterNamed _ filters).
Qed.

Lemma ses_receipt_filter_exists_or_destroyed_witness :
  (testAccCheckAwsSESReceiptFilterExists (sesListing ["block-spam"])
     "aws_ses_receipt_filter.test" filterState []).1 = None
  <-> (testAccCheckSESReceiptFilterDestroy (sesListing ["block-spam"]) filterState []).1
      ≠ None.
Proof.
  apply (ses_receipt_filter_exists_or_destroyed (sesListing ["block-spam"])
           "aws_ses_receipt_filter.test" blockFilter filterState []
           [ses.mkReceiptFilter (Some "block-spam")]).
  - vm_compute. reflexivity.
  - vm_compute. reflexivity.
  - discriminate.
  - reflexivity.
Defined.

Lemma wafv2_destroy_skips (conn : WAFV2Conn) (before after : terraform.State) :
  Forall (fun entry => terraform.Type_ entry.2 ≠ "aws_wafv2_web_acl_association") before ->
  forall w : list TestCall,
    testAccCheckAWSWafv2WebACLAssociationDestroy conn (before ++ after) w
    = testAccCheckAWSWafv2WebACLAssociationDestroy conn after w.
Proof.
  induction 1 as [|[name rs] rest Hother _ IH]; intros w; [done|].
  simpl in Hother. cbn [app testAccCheckAWSWafv2WebACLAssociationDestroy].
  by rewrite bool_decide_eq_true_2.
Qed.

(** X26.  The destroy check of the WAFv2 web ACL association returns at
    the first association it meets: it makes one call, for that
    association, and its result does not depend on the resources that
    come after it in the order of the range, so that further associations
    in the state are not checked. *)
Theorem wafv2_association_destroy_checks_first_only (conn : WAFV2Conn)
    (before after : terraform.State) (name : string) (rs : terraform.ResourceState)
    (w : list TestCall) :
  Forall (fun entry => terraform.Type_ entry.2 ≠ "aws_wafv2_web_acl_association") before ->
  terraform.Type_ rs = "aws_wafv2_web_acl_association" ->
  let run :=
    testAccCheckAWSWafv2WebACLAssociationDestroy conn (before ++ (name, rs) :: after) w in
  run = testAccCheckAWSWafv2WebACLAssociationDestroy conn [(name, rs)] w
  ∧ run.2 = w ++ [GetWebACLForResource (terraform.Attribute rs "resource_arn")].
Proof.
  intros Hbefore Htype run. subst run.
  rewrite (wafv2_destroy_skips conn before _ Hbefore).
  cbn [testAccCheckAWSWafv2WebACLAssociationDestroy].
  rewrite bool_decide_eq_false_2 by (by intros ?). cbv zeta.
  destruct (onGetWebACLForResource conn w _) as [[[[webACL|]]|]|err]; try done.
  - by case_bool_decide.
  - by destruct (ErrMessageContains _ _ _).
Qed.

Lemma wafv2_association_destroy_checks_first_only_witness :
  testAccCheckAWSWafv2WebACLAssociationDestroy (wafv2Knowing "stage-2" "acl-2")
    associationState []
  = (None, [GetWebACLForResource "stage-1"]).
Proof.
  destruct (wafv2_association_destroy_checks_first_only (wafv2Knowing "stage-2" "acl-2")
              [("aws_s3_bucket.logs", someBucket)]
              [("aws_wafv2_web_acl_association.second", association "acl-2" "stage-2")]
              "aws_wafv2_web_acl_association.first" (association "acl-1" "stage-1") [])
    as [Hfirst _].
  - apply Forall_cons. split; [discriminate | apply Forall_nil_2].
  - reflexivity.
  - etransitivity; [exact Hfirst|]. vm_compute. reflexivity.
Defined.

(** X27.  The identifier that the import helper puts together is the one
    the destroy check compares with: for an association whose identifier
    is what the import helper returns, and a service that still reports
    the web ACL of the state for the resource, the destroy check fails
    with "still exists". *)
Theorem wafv2_association_import_id_still_exists (conn : WAFV2Conn) (name : string)
    (rs : terraform.ResourceState) (s : terraform.State) (w : list TestCall)
    (webACL : wafv2.WebACL) :
  terraform.Resource s name = Some rs ->
  terraform.Type_ rs = "aws_wafv2_web_acl_association" ->
  (testAccAWSWafv2WebACLAssociationImportStateIdFunc name s).1
  = terraform.ID (terraform.Primary rs) ->
  onGetWebACLForResource conn w (terraform.Attribute rs "resource_arn")
    = Ok (Some (wafv2.mkGetWebACLForResourceOutput (Some webACL))) ->
  StringValue (wafv2.ARN webACL) = terraform.Attribute rs "web_acl_arn" ->
  testAccCheckAWSWafv2WebACLAssociationDestroy conn [(name, rs)] w
  = (Some (Errorf ("WAFv2 WebACLAssociation " +:+ terraform.ID (terraform.Primary rs)
                     +:+ " still exists")),
     w ++ [GetWebACLForResource (terraform.Attribute rs "resource_arn")]).
Proof.
  intros Hresource Htype Hid Hanswer Harn.
  unfold testAccAWSWafv2WebACLAssociationImportStateIdFunc in Hid.
  rewrite Hresource in Hid. cbn [fst] in Hid.
  cbn [testAccCheckAWSWafv2WebACLAssociationDestroy].
  rewrite bool_decide_eq_false_2 by (by intros ?). cbv zeta.
  rewrite Hanswer, Harn, Hid. by rewrite bool_decide_eq_true_2.
Qed.

Lemma wafv2_association_import_id_still_exists_witness :
  testAccCheckAWSWafv2WebACLAssociationDestroy (wafv2Knowing "stage-1" "acl-1")
    [("aws_wafv2_web_acl_association.first", association "acl-1" "stage-1")] []
  = (Some (Errorf "WAFv2 WebACLAssociation acl-1,stage-1 still exists"),
     [GetWebACLForResource "stage-1"]).
Proof.
  apply (wafv2_association_import_id_still_exists (wafv2Knowing "stage-1" "acl-1")
           "aws_wafv2_web_acl_association.first" (association "acl-1" "stage-1")
           associationState [] (wafv2.mkWebACL (Some "acl-1")));
    vm_compute; reflexivity.
Defined.

(** X28.  For the association it checks, the destroy check takes the
    nonexistent-item code of the service for "destroyed" and passes; any
    other error of the call is returned as it came, without a message
    added; an answer without a web ACL is an error of its own. *)
Theorem wafv2_association_destroy_by_answer (conn : WAFV2Conn) (name : string)
    (rs : terraform.ResourceState) (w : list TestCall) :
  terraform.Type_ rs = "aws_wafv2_web_acl_association" ->
  let answer := onGetWebACLForResource conn w (terraform.Attribute rs "resource_arn") in
  let run := testAccCheckAWSWafv2WebACLAssociationDestroy conn [(name, rs)] w in
  (forall err, answer = Err err ->
     run.1 = if ErrMessageContains (Some (AwsErr err))
                  wafv2.ErrCodeWAFNonexistentItemException ""
             then None else Some (AwsErr err))
  ∧ (answer = Ok None ∨ answer = Ok (Some (wafv2.mkGetWebACLForResourceOutput None)) ->
     run.1 = Some (Errorf "Error getting WAFv2 WebACLAssociation")).
Proof.
  intros Htype answer run. subst run answer.
  cbn [testAccCheckAWSWafv2WebACLAssociationDestroy].
  rewrite bool_decide_eq_false_2 by (by intros ?). cbv zeta.
  split.
  - intros err ->. by destruct (ErrMessageContains _ _ _).
  - by intros [-> | ->].
Qed.

Lemma wafv2_association_destroy_by_answer_witness :
  (testAccCheckAWSWafv2WebACLAssociationDestroy (wafv2Knowing "stage-2" "acl-2")
     [("aws_wafv2_web_acl_association.first", association "acl-1" "stage-1")] []).1 = None.
Proof.
  destruct (wafv2_association_destroy_by_answer (wafv2Knowing "stage-2" "acl-2")
              "aws_wafv2_web_acl_association.first" (association "acl-1" "stage-1") []
              eq_refl) as [Herr _].
  exact (Herr (mkAwsErr wafv2.ErrCodeWAFNonexistentItemException "no association") eq_refl).
Defined.
